(** * Route resolution and transfer orchestration of the Wormhole bridge UI

    A shallow embedding of
      - [src/app/lib/route-helpers.ts]   (route presenter: formatting, sorting),
      - [src/app/lib/viem-ethers-adapter.ts] (wallet adapter),
      - [src/app/lib/wormhole.ts]        (signer, route resolver, transfer executor),
      - the transaction-hash extraction of the two [handleConfirmTransfer]
        handlers under [src/app/components/],
      - the error classes of [src/lib/wormhole-sdk/core/errors.ts] that the
        specification names.

    Conventions.
      - JavaScript numbers that hold integers (milliseconds, seconds, base-unit
        amounts) are [Z] or [N]; the fee magnitude, a quotient, is an exact
        rational [Q].  Rounding of IEEE doubles is not modelled.
      - [undefined] / [null] is [None]; a value is "truthy" as in JavaScript.
      - Strings are [string]s of ASCII characters.
      - [console.log] / [console.error] output is diagnostic only and is left
        out of the traces. *)

From Stdlib Require Import ZArith NArith QArith Qround Bool.
From Stdlib Require Import String Ascii List Lia Lqa.
From Stdlib Require Import DecimalString DecimalN.
From Stdlib Require Import Sorted Permutation.
Import ListNotations.

Local Open Scope string_scope.
Local Open Scope Z_scope.

(* ===================================================================== *)
(** ** JavaScript primitives used by the sources                          *)
(* ===================================================================== *)

(** Decimal rendering of a non-negative integer ([String(n)], [`${n}`]). *)
Definition decimal (n : N) : string :=
  NilEmpty.string_of_uint (N.to_uint n).

(** [`${z}`] for an integer-valued number. *)
Definition number_to_string (z : Z) : string :=
  if z <? 0 then "-" ++ decimal (Z.to_N (- z)) else decimal (Z.to_N z).

(** Truthiness of an optional string: [undefined] and [''] are falsy. *)
Definition truthy_string (v : option string) : bool :=
  match v with
  | Some s => negb (String.eqb s "")
  | None => false
  end.

(** [a || b] on optional strings. *)
Definition or_string (a b : option string) : option string :=
  if truthy_string a then a else b.

(** [a || d] where [d] is a string literal. *)
Definition or_default (a : option string) (d : string) : string :=
  match a with
  | Some s => if String.eqb s "" then d else s
  | None => d
  end.

(** [hay.includes(needle)]. *)
Fixpoint includes (hay needle : string) : bool :=
  if prefix needle hay then true
  else match hay with
       | String _ hay' => includes hay' needle
       | EmptyString => false
       end.

(** The numbers that [parseTimeString] and the speed comparator can produce. *)
Inductive jsnumber : Type :=
| Finite (z : Z)
| PosInfinity
| NegInfinity
| NaN.

(** [a - b]. *)
Definition js_sub (a b : jsnumber) : jsnumber :=
  match a, b with
  | NaN, _ | _, NaN => NaN
  | Finite x, Finite y => Finite (x - y)
  | Finite _, PosInfinity => NegInfinity
  | Finite _, NegInfinity => PosInfinity
  | PosInfinity, PosInfinity => NaN
  | PosInfinity, _ => PosInfinity
  | NegInfinity, NegInfinity => NaN
  | NegInfinity, _ => NegInfinity
  end.

(** [v > 0]; false for [NaN], which [Array.prototype.sort] reads as [+0]. *)
Definition js_positive (v : jsnumber) : bool :=
  match v with
  | Finite z => 0 <? z
  | PosInfinity => true
  | NegInfinity | NaN => false
  end.

(** [Array.prototype.sort(comparefn)] on a copy of the array.  The language
    requires the sort to be stable; for a consistent comparator the result is
    therefore the unique stable arrangement, computed here by insertion.
    [gt a b] stands for [comparefn(a, b) > 0], asked with [a] the element that
    came earlier in the input. *)
Section ArraySort.
Context {A : Type}.
Variable gt : A -> A -> bool.

Fixpoint sort_insert (a : A) (l : list A) : list A :=
  match l with
  | [] => [a]
  | y :: l' => if gt a y then y :: sort_insert a l' else a :: y :: l'
  end.

Fixpoint array_sort (l : list A) : list A :=
  match l with
  | [] => []
  | a :: l' => sort_insert a (array_sort l')
  end.
End ArraySort.

(** [array.map((x, index) => f x index)]. *)
Section ArrayMap.
Context {A B : Type}.
Variable f : A -> nat -> B.

Fixpoint map_from (index : nat) (l : list A) : list B :=
  match l with
  | [] => []
  | x :: l' => f x index :: map_from (S index) l'
  end.

Definition array_map (l : list A) : list B := map_from 0%nat l.
End ArrayMap.

(** [Number.prototype.toFixed(6)] of a non-negative number below 1e21: the
    integer [n] nearest to [x * 10^6] (the larger one on a tie), printed with
    the last six digits after the point. *)
Definition pad6 (n : N) : string :=
  let s := decimal n in
  let fix zeros (k : nat) : string :=
    match k with O => "" | S k' => "0" ++ zeros k' end in
  zeros (6 - String.length s)%nat ++ s.

Definition toFixed6 (x : Q) : string :=
  let n := Qfloor (x * inject_Z 1000000 + (1 # 2)) in
  decimal (Z.to_N (n / 1000000)) ++ "." ++ pad6 (Z.to_N (n mod 1000000)).


(* ===================================================================== *)
(** ** Errors ([src/lib/wormhole-sdk/core/types.ts], [errors.ts])         *)
(* ===================================================================== *)

Inductive WormholeErrorCode : Type :=
| INVALID_CONFIG | NETWORK_NOT_SUPPORTED
| CHAIN_NOT_FOUND | CHAIN_NOT_SUPPORTED
| TOKEN_NOT_FOUND | INVALID_TOKEN_ADDRESS | INSUFFICIENT_BALANCE
| NO_ROUTES_FOUND | ROUTE_VALIDATION_FAILED
| QUOTE_FAILED | QUOTE_EXPIRED
| TRANSFER_FAILED | APPROVAL_FAILED | INSUFFICIENT_ALLOWANCE
| TX_REJECTED | TX_TIMEOUT | TX_FAILED
| WALLET_NOT_CONNECTED | WALLET_WRONG_NETWORK
| UNKNOWN_ERROR.

(** A thrown value: the class name ([error.name]), the [code] that only the
    [WormholeError] classes carry, and the message. *)
Record JsError : Type := mkError {
  err_name : string;
  err_code : option WormholeErrorCode;
  err_message : string
}.

(** [new Error(message)]. *)
Definition Error (message : string) : JsError :=
  mkError "Error" None message.

(** [new TypeError(message)], raised by the runtime on a property read of
    [undefined]. *)
Definition TypeError (message : string) : JsError :=
  mkError "TypeError" None message.

(** [new QuoteFailedError(reason)]. *)
Definition QuoteFailedError (reason : string) : JsError :=
  mkError "QuoteFailedError" (Some QUOTE_FAILED) ("Failed to get quote: " ++ reason).

(** [new TransferFailedError(reason)]. *)
Definition TransferFailedError (reason : string) : JsError :=
  mkError "TransferFailedError" (Some TRANSFER_FAILED) ("Transfer failed: " ++ reason).

(** [new NoRoutesFoundError()]. *)
Definition NoRoutesFoundError : JsError :=
  mkError "NoRoutesFoundError" (Some NO_ROUTES_FOUND) "No routes found for this transfer".

(** [isWormholeError(e)]: [e instanceof WormholeError]. *)
Definition isWormholeError (e : JsError) : bool :=
  match err_code e with Some _ => true | None => false end.

(* ===================================================================== *)
(** ** Data model                                                         *)
(* ===================================================================== *)

(** [Wormhole.tokenId(chain, address)]. *)
Record TokenId : Type := mkTokenId {
  tid_chain : string;
  tid_address : string
}.

(** [{ amount, decimals }]: [amount] is the base-unit integer that the decimal
    string of the quote denotes. *)
Record Amount : Type := mkAmount {
  amt_amount : N;
  amt_decimals : N
}.

Record FeeToken : Type := mkFeeToken {
  symbol : option string
}.

(** [quote.relayFee]. *)
Record RelayFee : Type := mkRelayFee {
  rf_token : FeeToken;
  rf_amount : Amount
}.

(** [quote.destinationToken]. *)
Record DestinationToken : Type := mkDestinationToken {
  dt_token : TokenId
}.

(** What the sources read of a route's quote result. *)
Record Quote : Type := mkQuote {
  success : bool;
  quote_error : option string;
  destinationToken : option DestinationToken;
  relayFee : option RelayFee;
  eta : option Z
}.

(** Parsed sender / receiver address (opaque SDK object). *)
Record ParsedAddress : Type := mkParsedAddress {
  pa_chain : string;
  pa_text : string
}.

Record TransferRequest : Type := mkTransferRequest {
  source : TokenId;
  destination : TokenId;
  sender : option ParsedAddress;
  receiver : option ParsedAddress
}.

(** [{ amount, options: { nativeGas } }]. *)
Record TransferParams : Type := mkTransferParams {
  tp_amount : string;
  tp_nativeGas : Z
}.

(** [validated.params] (opaque SDK object). *)
Inductive ValidatedParams : Type :=
| validated_params (id : N).

Record ValidationResult : Type := mkValidationResult {
  valid : bool;
  validation_error : option string;
  params : ValidatedParams
}.

(** [{ chain, address }] handed to [route.initiate]. *)
Record ChainAddress : Type := mkChainAddress {
  ca_chain : string;
  ca_address : option ParsedAddress
}.

Record TransactionReference : Type := mkTransactionReference {
  tx_txid : string;
  tx_chain : string
}.

(** What the sources read of the receipt that [route.initiate] resolves to. *)
Record Receipt : Type := mkReceipt {
  originTxs : option (list TransactionReference);
  txid : option string;
  hash : option string
}.

(** The ethers-style transaction handed to the adapter. *)
Record EthersTransaction : Type := mkEthersTransaction {
  to : option string;
  data : option string;
  value : option Z;
  gasLimit : option Z;
  maxFeePerGas : option Z;
  maxPriorityFeePerGas : option Z;
  nonce : option Z
}.

Record Account : Type := mkAccount {
  account_address : string
}.

Record Chain : Type := mkChain {
  chain_id : Z;
  chain_name : string
}.

(** The argument of viem's [walletClient.sendTransaction]. *)
Record SendTransactionRequest : Type := mkSendTransactionRequest {
  req_to : option string;
  req_data : option string;
  req_value : option Z;
  req_gas : option Z;
  req_maxFeePerGas : option Z;
  req_maxPriorityFeePerGas : option Z;
  req_nonce : option Z;
  req_account : Account;
  req_chain : Chain
}.

(** One element of the list given to [signAndSend]. *)
Record UnsignedTransaction : Type := mkUnsignedTransaction {
  transaction : EthersTransaction;
  txn_description : string
}.

Record Block : Type := mkBlock {
  baseFeePerGas : option Z
}.

(** viem's transaction receipt (opaque). *)
Inductive TransactionReceipt : Type :=
| transaction_receipt (blockNumber : Z).

Record FeeData : Type := mkFeeData {
  fd_gasPrice : Z;
  fd_maxFeePerGas : Z;
  fd_maxPriorityFeePerGas : Z
}.

Record Network : Type := mkNetwork {
  net_chainId : Z;
  net_name : string
}.

(** SDK handles (opaque). *)
Inductive Wh : Type := wh_handle (network : string).
Inductive Resolver : Type := resolver_handle (routeKinds : list string).
Record ChainContext : Type := mkChainContext { cc_chain : string }.

(* ===================================================================== *)
(** ** Calls across the component boundary, and the [async] monad         *)
(* ===================================================================== *)

(** The asynchronous calls the sources make to the wallet, to the chain and
    to the protocol, with their arguments.  [WalletSignTransaction] is the
    wallet's detached-signature request ([eth_signTransaction]). *)
Inductive Event : Type :=
| WalletSendTransaction (request : SendTransactionRequest)
| WalletSignTransaction (tx : EthersTransaction)
| WaitForTransactionReceipt (txHash : string)
| GetBlock
| GetGasPrice
| GetBlockNumber
| GetTransactionCount (address : string)
| InitWormhole (network : string)
| SupportedDestinationTokens (token : TokenId) (srcChain dstChain : string)
| CreateTransferRequest (src dst : TokenId)
| FindRoutes (request : TransferRequest)
| RouteValidate (routeType : string) (request : TransferRequest) (tp : TransferParams)
| RouteQuote (routeType : string) (request : TransferRequest) (vp : ValidatedParams)
| RouteInitiate (routeType : string) (request : TransferRequest)
    (signerChain signerAddress : string) (q : Quote) (to_ : ChainAddress).

(** Calls in the order in which they were made. *)
Definition Trace : Type := list Event.

Inductive Outcome (A : Type) : Type :=
| Returned (a : A)
| Thrown (e : JsError).
Arguments Returned {A} a.
Arguments Thrown {A} e.

(** An [async] function body: run after the calls of the trace so far, it
    makes further calls and returns or throws. *)
Definition Async (A : Type) : Type := Trace -> Trace * Outcome A.

Definition ret {A} (a : A) : Async A := fun t => (t, Returned a).

Definition throw {A} (e : JsError) : Async A := fun t => (t, Thrown e).

Definition bind {A B} (c : Async A) (k : A -> Async B) : Async B :=
  fun t =>
    match c t with
    | (t', Returned a) => k a t'
    | (t', Thrown e) => (t', Thrown e)
    end.

(** [await callee(args)]: the call is recorded, and the callee answers
    knowing everything that was called before. *)
Definition call {A} (ev : Event) (callee : Trace -> Outcome A) : Async A :=
  fun t => ((t ++ [ev])%list, callee t).

(** A synchronous SDK function that may throw. *)
Definition lift {A} (o : Outcome A) : Async A := fun t => (t, o).

Declare Scope async_scope.
Delimit Scope async_scope with async.
Notation "x <- c ;; k" := (bind c (fun x => k))
  (at level 61, c at next level, right associativity) : async_scope.
Local Open Scope async_scope.

(** A route object of the SDK: its class name ([route.constructor.name]) and
    its three asynchronous methods.  Route classes are the SDK's; none is
    named after a property of [Object.prototype]. *)
Record Route : Type := mkRoute {
  constructor_name : string;
  validate : Trace -> TransferRequest -> TransferParams -> Outcome ValidationResult;
  quote : Trace -> TransferRequest -> ValidatedParams -> Outcome Quote;
  initiate : Trace -> TransferRequest -> string -> string -> Quote -> ChainAddress ->
             Outcome (option Receipt)
}.

(** [RouteOption] ([src/app/components/RouteSelector.tsx]). *)
Record RouteOption : Type := mkRouteOption {
  type : string;
  name : string;
  description : string;
  fee : string;
  feeAmount : Q;
  estimatedTime : string;
  isAutomatic : bool
}.

(* ===================================================================== *)
(** ** Route presenter ([src/app/lib/route-helpers.ts])                   *)
(* ===================================================================== *)

(** [names[routeType] || routeType]. *)
Definition getRouteName (routeType : string) : string :=
  if String.eqb routeType "AutomaticCCTPRoute" then "Fast CCTP (Automatic)"
  else if String.eqb routeType "CCTPRoute" then "Fast CCTP (Manual)"
  else if String.eqb routeType "AutomaticTokenBridgeRoute" then "Token Bridge (Automatic)"
  else if String.eqb routeType "TokenBridgeRoute" then "Token Bridge (Manual)"
  else routeType.

(** [descriptions[routeType] || 'Standard bridge route']. *)
Definition getRouteDescription (routeType : string) : string :=
  if String.eqb routeType "AutomaticCCTPRoute"
  then "Fastest delivery with automatic relayer - includes relay fee"
  else if String.eqb routeType "CCTPRoute"
  then "Fast delivery - requires manual claim on destination chain"
  else if String.eqb routeType "AutomaticTokenBridgeRoute"
  then "Automatic delivery via Token Bridge - may take longer"
  else if String.eqb routeType "TokenBridgeRoute"
  then "Cheapest option - requires manual claim and takes ~12+ days"
  else "Standard bridge route".

Definition isAutomaticRoute (routeType : string) : bool :=
  includes routeType "Automatic".

Definition formatETA (milliseconds : Z) : string :=
  let seconds := milliseconds / 1000 in
  let minutes := seconds / 60 in
  let hours := minutes / 60 in
  let days := hours / 24 in
  if 0 <? days then
    "~" ++ number_to_string days ++ " day" ++ (if 1 <? days then "s" else "")
  else if 0 <? hours then
    "~" ++ number_to_string hours ++ " hour" ++ (if 1 <? hours then "s" else "")
  else if 0 <? minutes then
    "~" ++ number_to_string minutes ++ " min"
  else
    "~" ++ number_to_string seconds ++ " sec".

(** [quote?.eta || 0]. *)
Definition eta_or_zero (q : option Quote) : Z :=
  match q with
  | Some q' => match eta q' with Some ms => ms | None => 0 end
  | None => 0
  end.

(** [quote?.relayFee]. *)
Definition relayFee_of (q : option Quote) : option RelayFee :=
  match q with
  | Some q' => relayFee q'
  | None => None
  end.

(** [quotes[index]]; out of range is [undefined]. *)
Definition quote_at (quotes : list (option Quote)) (index : nat) : option Quote :=
  match nth_error quotes index with
  | Some q => q
  | None => None
  end.

(** The body of the callback of [formatRoutes]. *)
Definition formatRoute (quotes : list (option Quote)) (route : Route) (index : nat)
  : RouteOption :=
  let routeType := constructor_name route in
  let quote := quote_at quotes index in
  let relayFee := relayFee_of quote in
  let feeAmount :=
    match relayFee with
    | Some rf =>
        inject_Z (Z.of_N (amt_amount (rf_amount rf)))
        / inject_Z (10 ^ Z.of_N (amt_decimals (rf_amount rf)))
    | None => 0
    end%Q in
  let feeDisplay :=
    match relayFee with
    | Some rf => toFixed6 feeAmount ++ " " ++ or_default (symbol (rf_token rf)) "tokens"
    | None => "Free"
    end in
  let eta := eta_or_zero quote in
  let estimatedTime := formatETA eta in
  {| type := routeType;
     name := getRouteName routeType;
     description := getRouteDescription routeType;
     fee := feeDisplay;
     feeAmount := feeAmount;
     estimatedTime := estimatedTime;
     isAutomatic := isAutomaticRoute routeType |}.

Definition formatRoutes (allRoutes : list Route) (quotes : list (option Quote))
  : list RouteOption :=
  array_map (formatRoute quotes) allRoutes.

(** [a.feeAmount - b.feeAmount > 0]. *)
Definition fee_gt (a b : RouteOption) : bool :=
  negb (Qle_bool (feeAmount a - feeAmount b) 0).

Definition sortRoutesByFee (routes : list RouteOption) : list RouteOption :=
  array_sort fee_gt routes.

(** *** The regular expression [/~(\d+)\s*(\w+)/] *)

Definition is_digit (c : ascii) : bool :=
  let n := nat_of_ascii c in ((48 <=? n) && (n <=? 57))%nat.

(** [\w]: letters, digits and the underscore. *)
Definition is_word (c : ascii) : bool :=
  let n := nat_of_ascii c in
  (((48 <=? n) && (n <=? 57)) || ((65 <=? n) && (n <=? 90))
   || ((97 <=? n) && (n <=? 122)) || (n =? 95))%nat.

(** [\s] on ASCII: tab, line feed, vertical tab, form feed, carriage return,
    space. *)
Definition is_space (c : ascii) : bool :=
  let n := nat_of_ascii c in (((9 <=? n) && (n <=? 13)) || (n =? 32))%nat.

(** The longest run of word characters at the head of [s]. *)
Fixpoint word_run (s : string) : string :=
  match s with
  | String c s' => if is_word c then String c (word_run s') else ""
  | EmptyString => ""
  end.

(** [(\w+)] at the head of [s]: greedy, and nothing follows it in the pattern. *)
Definition match_word (s : string) : option string :=
  match word_run s with
  | EmptyString => None
  | u => Some u
  end.

(** [\s*(\w+)] at the head of [s]: [\s*] takes as much white space as it can
    and gives it back one character at a time when the rest fails. *)
Fixpoint match_spaces_word (s : string) : option string :=
  match s with
  | String c s' =>
      if is_space c then
        match match_spaces_word s' with
        | Some u => Some u
        | None => match_word s
        end
      else match_word s
  | EmptyString => match_word s
  end.

(** [(\d+)\s*(\w+)] at the head of [s]: [\d+] takes as many digits as it can
    and gives them back one at a time, keeping at least one. *)
Fixpoint match_digits_rest (s : string) : option (string * string) :=
  match s with
  | String c s' =>
      if is_digit c then
        match match_digits_rest s' with
        | Some (ds, u) => Some (String c ds, u)
        | None =>
            match match_spaces_word s' with
            | Some u => Some (String c EmptyString, u)
            | None => None
            end
        end
      else None
  | EmptyString => None
  end.

Definition match_at (s : string) : option (string * string) :=
  match s with
  | String "~"%char s' => match_digits_rest s'
  | _ => None
  end.

(** [timeStr.match(/~(\d+)\s*(\w+)/)]: the match at the leftmost position
    that has one, as the pair of its two groups. *)
Fixpoint regex_match (s : string) : option (string * string) :=
  match match_at s with
  | Some r => Some r
  | None =>
      match s with
      | String _ s' => regex_match s'
      | EmptyString => None
      end
  end.

(** [parseInt(value)] of a string of decimal digits. *)
Definition parseInt (value : string) : jsnumber :=
  match NilEmpty.uint_of_string value with
  | Some d => Finite (Z.of_N (N.of_uint d))
  | None => NaN
  end.

(** The property names that every object literal inherits from
    [Object.prototype]; all of them hold functions or objects. *)
Definition Object_prototype_keys : list string :=
  [ "constructor"; "hasOwnProperty"; "isPrototypeOf"; "propertyIsEnumerable";
    "toLocaleString"; "toString"; "valueOf"; "__proto__";
    "__defineGetter__"; "__defineSetter__"; "__lookupGetter__"; "__lookupSetter__" ].

(** [num * (multipliers[unit] || 1)]. *)
Definition times_multiplier (num : jsnumber) (unit_ : string) : jsnumber :=
  let scale (m : Z) :=
    match num with
    | Finite n => Finite (n * m)
    | other => other
    end in
  if String.eqb unit_ "sec" then scale 1
  else if String.eqb unit_ "min" then scale 60
  else if String.eqb unit_ "hour" then scale 3600
  else if String.eqb unit_ "hours" then scale 3600
  else if String.eqb unit_ "day" then scale 86400
  else if String.eqb unit_ "days" then scale 86400
  else if existsb (String.eqb unit_) Object_prototype_keys then NaN
  else scale 1.

Definition parseTimeString (timeStr : string) : jsnumber :=
  match regex_match timeStr with
  | None => PosInfinity
  | Some (value, unit_) =>
      let num := parseInt value in
      times_multiplier num unit_
  end.

(** [aTime - bTime > 0]. *)
Definition speed_gt (a b : RouteOption) : bool :=
  let aTime := parseTimeString (estimatedTime a) in
  let bTime := parseTimeString (estimatedTime b) in
  js_positive (js_sub aTime bTime).

Definition sortRoutesBySpeed (routes : list RouteOption) : list RouteOption :=
  array_sort speed_gt routes.

(* ===================================================================== *)
(** ** Wallet adapter ([src/app/lib/viem-ethers-adapter.ts])              *)
(* ===================================================================== *)

(** viem's wallet client: the connected account and chain, and the
    send-and-broadcast capability ([eth_sendTransaction]). *)
Record WalletClient : Type := mkWalletClient {
  account : option Account;
  chain : option Chain;
  wallet_sendTransaction : Trace -> SendTransactionRequest -> Outcome string
}.

(** viem's public client, as far as the adapter uses it. *)
Record PublicClient : Type := mkPublicClient {
  getBlock : Trace -> Outcome Block;
  getGasPrice : Trace -> Outcome Z;
  getBlockNumber : Trace -> Outcome Z;
  getTransactionCount : Trace -> string -> Outcome Z;
  waitForTransactionReceipt : Trace -> string -> Outcome TransactionReceipt
}.

(** The ethers-compatible transaction response. *)
Record TransactionResponse : Type := mkTransactionResponse {
  response_hash : string;
  wait : Async (TransactionReceipt * string)
}.

Record Provider : Type := mkProvider {
  getNetwork : Async Network;
  getFeeData : Async FeeData;
  provider_getBlock : Async Block;
  provider_getBlockNumber : Async Z
}.

(** The object returned by [walletClientToEthersSigner]. *)
Record EthersSigner : Type := mkEthersSigner {
  provider : Provider;
  getAddress : Async string;
  getNonce : Async Z;
  sendTransaction : EthersTransaction -> Async TransactionResponse;
  signTransaction : EthersTransaction -> Async string
}.

(** [x ? BigInt(x) : undefined]. *)
Definition truthy_bigint (x : option Z) : option Z :=
  match x with
  | Some 0 => None
  | other => other
  end.

(** The object literal that the adapter's [sendTransaction] passes to
    [walletClient.sendTransaction]. *)
Definition viem_request (account : Account) (chain : Chain)
    (transaction : EthersTransaction) : SendTransactionRequest :=
  {| req_to := to transaction;
     req_data := data transaction;
     req_value := truthy_bigint (value transaction);
     req_gas := truthy_bigint (gasLimit transaction);
     req_maxFeePerGas := truthy_bigint (maxFeePerGas transaction);
     req_maxPriorityFeePerGas := truthy_bigint (maxPriorityFeePerGas transaction);
     req_nonce := nonce transaction;
     req_account := account;
     req_chain := chain |}.

Section Adapter.
(** [createPublicClient({ chain, transport: http() })]. *)
Variable createPublicClient : Chain -> PublicClient.

Definition walletClientToEthersSigner (walletClient : WalletClient)
  : Outcome EthersSigner :=
  match account walletClient, chain walletClient with
  | Some account, Some chain =>
      let publicClient := createPublicClient chain in
      Returned
        {| provider :=
             {| getNetwork :=
                  ret {| net_chainId := chain_id chain; net_name := chain_name chain |};
                getFeeData :=
                  block <- call GetBlock (getBlock publicClient) ;;
                  gasPrice <- call GetGasPrice (getGasPrice publicClient) ;;
                  let baseFee :=
                    match truthy_bigint (baseFeePerGas block) with
                    | Some b => b
                    | None => gasPrice
                    end in
                  let maxPriorityFeePerGas := Z.quot gasPrice 10 in
                  let maxFeePerGas := baseFee * 2 + maxPriorityFeePerGas in
                  ret {| fd_gasPrice := gasPrice;
                         fd_maxFeePerGas := maxFeePerGas;
                         fd_maxPriorityFeePerGas := maxPriorityFeePerGas |};
                provider_getBlock := call GetBlock (getBlock publicClient);
                provider_getBlockNumber :=
                  call GetBlockNumber (getBlockNumber publicClient) |};
           getAddress := ret (account_address account);
           getNonce :=
             nonce <- call (GetTransactionCount (account_address account))
                        (fun t => getTransactionCount publicClient t
                                    (account_address account)) ;;
             ret nonce;
           sendTransaction := fun transaction =>
             let request := viem_request account chain transaction in
             hash <- call (WalletSendTransaction request)
                       (fun t => wallet_sendTransaction walletClient t request) ;;
             receipt <- call (WaitForTransactionReceipt hash)
                          (fun t => waitForTransactionReceipt publicClient t hash) ;;
             ret {| response_hash := hash;
                    wait := ret (receipt, hash) |};
           signTransaction := fun transaction =>
             throw (Error
               "signTransaction not supported - the SDK should use sendTransaction instead")
        |}
  | _, _ => Thrown (Error "Wallet not connected")
  end.

End Adapter.

(* ===================================================================== *)
(** ** Signer ([src/app/lib/wormhole.ts])                                 *)
(* ===================================================================== *)

Record ViemWormholeSigner : Type := mkViemWormholeSigner {
  chainName : string;
  walletAddress : string;
  ethersSigner : EthersSigner
}.

(** The methods [chain()] and [address()]. *)
Definition signer_chain (this : ViemWormholeSigner) : string := chainName this.

Definition signer_address (this : ViemWormholeSigner) : string := walletAddress this.

(** The [for ... of] loop of [signAndSend], entered with the ids pushed so
    far. *)
Fixpoint signAndSend_loop (this : ViemWormholeSigner)
    (txns : list UnsignedTransaction) (txids : list string) : Async (list string) :=
  match txns with
  | [] => ret txids
  | txn :: rest =>
      response <- sendTransaction (ethersSigner this) (transaction txn) ;;
      signAndSend_loop this rest (txids ++ [response_hash response])%list
  end.

Definition signAndSend (this : ViemWormholeSigner) (txns : list UnsignedTransaction)
  : Async (list string) :=
  signAndSend_loop this txns [].

(** [createWormholeSigner(walletClient, wh, chainName)]; the first argument
    stands for viem's [createPublicClient], which the adapter calls. *)
Definition createWormholeSigner (createPublicClient : Chain -> PublicClient)
    (walletClient : WalletClient) (wh : Wh) (chainName : string)
  : Outcome ViemWormholeSigner :=
  match account walletClient, chain walletClient with
  | Some account, Some _ =>
      match walletClientToEthersSigner createPublicClient walletClient with
      | Returned ethersSigner =>
          Returned {| chainName := chainName;
                      walletAddress := account_address account;
                      ethersSigner := ethersSigner |}
      | Thrown e => Thrown e
      end
  | _, _ => Thrown (Error "Wallet not connected")
  end.

(* ===================================================================== *)
(** ** Route resolver and transfer executor ([src/app/lib/wormhole.ts])   *)
(* ===================================================================== *)

(** The protocol SDK.  [wormhole], [supportedDestinationTokens],
    [RouteTransferRequest.create] and [findRoutes] are asynchronous; the
    other four are synchronous lookups. *)
Record Sdk : Type := mkSdk {
  wormhole : Trace -> string -> Outcome Wh;
  wh_resolver : Wh -> list string -> Outcome Resolver;
  wh_getChain : Wh -> string -> Outcome ChainContext;
  Wormhole_tokenId : string -> string -> Outcome TokenId;
  Wormhole_parseAddress : string -> string -> Outcome ParsedAddress;
  supportedDestinationTokens :
    Trace -> Resolver -> TokenId -> ChainContext -> ChainContext ->
    Outcome (option (list TokenId));
  RouteTransferRequest_create : Trace -> Wh -> TokenId -> TokenId -> Outcome TransferRequest;
  findRoutes : Trace -> Resolver -> TransferRequest -> Outcome (option (list Route))
}.

Record QuoteParams : Type := mkQuoteParams {
  qp_sourceChain : string;
  qp_destChain : string;
  qp_tokenAddress : string;
  qp_amount : string;
  qp_sourceAddress : string;
  qp_destAddress : string
}.

Record QuoteResult : Type := mkQuoteResult {
  qr_route : Route;
  qr_transferRequest : TransferRequest;
  qr_wh : Wh;
  qr_allRoutes : list Route
}.

(** The route classes given to [wh.resolver], fastest first. *)
Definition resolver_routes : list string :=
  [ "AutomaticCCTPRoute"; "CCTPRoute"; "AutomaticTokenBridgeRoute"; "TokenBridgeRoute" ].

Definition NATIVE_TOKEN_ADDRESS : string := "0xEeeeeEeeeEeEeeEeEeEeeEEEeeeeEeeeeeeeEEeE".

Section Executor.
Variable sdk : Sdk.

Definition initWormhole : Async Wh :=
  call (InitWormhole "Mainnet") (fun t => wormhole sdk t "Mainnet").

Definition getTransferQuote (params : QuoteParams) : Async QuoteResult :=
  let sourceChain := qp_sourceChain params in
  let destChain := qp_destChain params in
  let tokenAddress := qp_tokenAddress params in
  wh <- initWormhole ;;
  resolver <- lift (wh_resolver sdk wh resolver_routes) ;;
  srcChain <- lift (wh_getChain sdk wh sourceChain) ;;
  dstChain <- lift (wh_getChain sdk wh destChain) ;;
  let isNative := String.eqb tokenAddress NATIVE_TOKEN_ADDRESS in
  tokenId <- lift (Wormhole_tokenId sdk (cc_chain srcChain)
                     (if isNative then "native" else tokenAddress)) ;;
  destTokens <- call (SupportedDestinationTokens tokenId (cc_chain srcChain)
                        (cc_chain dstChain))
                  (fun t => supportedDestinationTokens sdk t resolver tokenId
                              srcChain dstChain) ;;
  match destTokens with
  | None | Some [] => throw (Error "No supported destination tokens found")
  | Some (destToken0 :: _) =>
      senderAddr <- lift (Wormhole_parseAddress sdk (cc_chain srcChain)
                            (qp_sourceAddress params)) ;;
      receiverAddr <- lift (Wormhole_parseAddress sdk (cc_chain dstChain)
                              (qp_destAddress params)) ;;
      created <- call (CreateTransferRequest tokenId destToken0)
                   (fun t => RouteTransferRequest_create sdk t wh tokenId destToken0) ;;
      let transferRequest :=
        {| source := source created;
           destination := destination created;
           sender := Some senderAddr;
           receiver := Some receiverAddr |} in
      foundRoutes <- call (FindRoutes transferRequest)
                       (fun t => findRoutes sdk t resolver transferRequest) ;;
      match foundRoutes with
      | None | Some [] => throw (Error "No routes found for this transfer")
      | Some (route0 :: rest) =>
          ret {| qr_route := route0;
                 qr_transferRequest := transferRequest;
                 qr_wh := wh;
                 qr_allRoutes := route0 :: rest |}
      end
  end.
End Executor.

Record InitiateParams : Type := mkInitiateParams {
  ip_route : Route;
  ip_transferRequest : TransferRequest;
  ip_signer : ViemWormholeSigner;
  ip_wh : Wh;
  ip_destAddress : string;
  ip_amount : string
}.

(** [receipt?.originTxs?.[0]?.txid]. *)
Definition first_origin_txid (receipt : option Receipt) : option string :=
  match receipt with
  | Some r =>
      match originTxs r with
      | Some (tx :: _) => Some (tx_txid tx)
      | _ => None
      end
  | None => None
  end.

(** [receipt?.txid] and [receipt?.hash]. *)
Definition receipt_txid (receipt : option Receipt) : option string :=
  match receipt with Some r => txid r | None => None end.

Definition receipt_hash (receipt : option Receipt) : option string :=
  match receipt with Some r => hash r | None => None end.

(** The [txHash] that [initiateTransfer] extracts (wormhole.ts, line 314):
    [receipt?.originTxs?.[0]?.txid || receipt?.txid || receipt?.hash]. *)
Definition initiateTransfer_txHash (receipt : option Receipt) : option string :=
  or_string (or_string (first_origin_txid receipt) (receipt_txid receipt))
            (receipt_hash receipt).

Definition initiateTransfer (args : InitiateParams)
  : Async (option Receipt) :=
  let route := ip_route args in
  let transferRequest := ip_transferRequest args in
  let signer := ip_signer args in
  let amt := ip_amount args in
  let transferParams := {| tp_amount := amt; tp_nativeGas := 0 |} in
  validated <- call (RouteValidate (constructor_name route) transferRequest transferParams)
                 (fun t => validate route t transferRequest transferParams) ;;
  if negb (valid validated) then
    throw (Error (or_default (validation_error validated) "Transfer validation failed"))
  else
    quote <- call (RouteQuote (constructor_name route) transferRequest (params validated))
               (fun t => quote route t transferRequest (params validated)) ;;
    if negb (success quote) then
      throw (Error (or_default (quote_error quote) "Failed to get quote"))
    else
      match destinationToken quote with
      | None =>
          throw (TypeError "Cannot read properties of undefined (reading 'token')")
      | Some destinationToken =>
          let receiverChainAddress :=
            {| ca_chain := tid_chain (dt_token destinationToken);
               ca_address := receiver transferRequest |} in
          receipt <- call (RouteInitiate (constructor_name route) transferRequest
                             (signer_chain signer) (signer_address signer)
                             quote receiverChainAddress)
                       (fun t => initiate route t transferRequest
                                   (signer_chain signer) (signer_address signer)
                                   quote receiverChainAddress) ;;
          ret receipt
      end.

(* ===================================================================== *)
(** ** Transaction hash shown to the user ([handleConfirmTransfer])       *)
(* ===================================================================== *)

(** [src/app/components/Bridge.tsx], line 232. *)
Definition Bridge_txHash (receipt : option Receipt) : string :=
  or_default (initiateTransfer_txHash receipt) "unknown".

(** [receipt?.originTxs || []]. *)
Definition originTxs_or_empty (receipt : option Receipt) : list TransactionReference :=
  match receipt with
  | Some r => match originTxs r with Some txs => txs | None => [] end
  | None => []
  end.

(** The handler of the component that offers the route selection
    ([src/app/components/Navbar.tsx], lines 393-396): the last origin
    transaction when there is one. *)
Definition Selector_txHash (receipt : option Receipt) : option string :=
  let originTxs := originTxs_or_empty receipt in
  if (0 <? length originTxs)%nat then
    option_map tx_txid (nth_error originTxs (length originTxs - 1))
  else
    Some (or_default (or_string (receipt_txid receipt) (receipt_hash receipt)) "unknown").

Definition wormholeUrl (txHash : string) : string :=
  "https://wormholescan.io/#/tx/" ++ txHash ++ "?network=Mainnet".

(* ===================================================================== *)
(** ** Orders and keys used to state the sorting properties               *)
(* ===================================================================== *)

(** [p] holds of every character of [s]. *)
Fixpoint string_forall (p : ascii -> bool) (s : string) : bool :=
  match s with
  | String c s' => p c && string_forall p s'
  | EmptyString => true
  end.

(** The numeric order on the numbers that are not [NaN]. *)
Definition jsnumber_le (x y : jsnumber) : Prop :=
  match x, y with
  | NaN, _ | _, NaN => False
  | NegInfinity, _ => True
  | _, PosInfinity => True
  | Finite a, Finite b => a <= b
  | _, _ => False
  end.


(** The sort key of [sortRoutesBySpeed]. *)
Definition parsed_time (o : RouteOption) : jsnumber :=
  parseTimeString (estimatedTime o).

(* ===================================================================== *)
(** ** Runs of the wallet, used to state the signer's properties          *)
(* ===================================================================== *)

Section WalletRuns.
Variables (walletClient : WalletClient) (publicClient : PublicClient).
Variables (account : Account) (chain : Chain).

(** The two calls of one transaction that was sent and mined. *)
Definition submission (txn : UnsignedTransaction) (txHash : string) : Trace :=
  [ WalletSendTransaction (viem_request account chain (transaction txn));
    WaitForTransactionReceipt txHash ].

(** The calls of a list of transactions sent and mined one after the
    other. *)
Fixpoint submissions (txns : list UnsignedTransaction) (hashes : list string)
  : Trace :=
  match txns, hashes with
  | txn :: txns', h :: hashes' => (submission txn h ++ submissions txns' hashes')%list
  | _, _ => []
  end.

(** [Completed t txns hashes t']: starting after [t], the wallet accepted
    every transaction of [txns] in turn and each was mined before the next
    was sent; [hashes] are the wallet's answers and [t'] the calls made. *)
Inductive Completed : Trace -> list UnsignedTransaction -> list string -> Trace -> Prop :=
| Completed_nil (t : Trace) : Completed t [] [] t
| Completed_cons (t t' : Trace) (txn : UnsignedTransaction) (h : string)
    (receipt : TransactionReceipt) (txns : list UnsignedTransaction)
    (hashes : list string) :
    let request := viem_request account chain (transaction txn) in
    wallet_sendTransaction walletClient t request = Returned h ->
    waitForTransactionReceipt publicClient
      (t ++ [WalletSendTransaction request])%list h = Returned receipt ->
    Completed (t ++ submission txn h)%list txns hashes t' ->
    Completed t (txn :: txns) (h :: hashes) t'.

(** [Failed t txn e t']: after [t], transaction [txn] failed with [e],
    either declined by the wallet or lost while waiting for its receipt. *)
Inductive Failed : Trace -> UnsignedTransaction -> JsError -> Trace -> Prop :=
| Failed_rejected (t : Trace) (txn : UnsignedTransaction) (e : JsError) :
    let request := viem_request account chain (transaction txn) in
    wallet_sendTransaction walletClient t request = Thrown e ->
    Failed t txn e (t ++ [WalletSendTransaction request])%list
| Failed_unmined (t : Trace) (txn : UnsignedTransaction) (h : string) (e : JsError) :
    let request := viem_request account chain (transaction txn) in
    wallet_sendTransaction walletClient t request = Returned h ->
    waitForTransactionReceipt publicClient
      (t ++ [WalletSendTransaction request])%list h = Thrown e ->
    Failed t txn e (t ++ submission txn h)%list.
End WalletRuns.

(** The transactions handed to the wallet, in the order of the trace. *)
Fixpoint sent_requests (t : Trace) : list SendTransactionRequest :=
  match t with
  | WalletSendTransaction request :: t' => request :: sent_requests t'
  | _ :: t' => sent_requests t'
  | [] => []
  end.

(** A detached-signature request to the wallet. *)
Definition requests_signature (ev : Event) : bool :=
  match ev with
  | WalletSignTransaction _ => true
  | _ => false
  end.

(** The operations that a holder of the adapter can start. *)
Inductive AdapterCall : Type :=
| call_getNetwork
| call_getFeeData
| call_getBlock
| call_getBlockNumber
| call_getAddress
| call_getNonce
| call_sendTransaction (tx : EthersTransaction)
| call_sendTransaction_wait (tx : EthersTransaction)
| call_signTransaction (tx : EthersTransaction)
| call_signAndSend (txns : list UnsignedTransaction).

(** The trace left by one operation on a signer (whether it returns or
    throws). *)
Definition adapter_trace (signer : ViemWormholeSigner) (c : AdapterCall) (t : Trace)
  : Trace :=
  let ethers := ethersSigner signer in
  match c with
  | call_getNetwork => fst (getNetwork (provider ethers) t)
  | call_getFeeData => fst (getFeeData (provider ethers) t)
  | call_getBlock => fst (provider_getBlock (provider ethers) t)
  | call_getBlockNumber => fst (provider_getBlockNumber (provider ethers) t)
  | call_getAddress => fst (getAddress ethers t)
  | call_getNonce => fst (getNonce ethers t)
  | call_sendTransaction tx => fst (sendTransaction ethers tx t)
  | call_sendTransaction_wait tx =>
      fst ((response <- sendTransaction ethers tx ;; wait response) t)
  | call_signTransaction tx => fst (signTransaction ethers tx t)
  | call_signAndSend txns => fst (signAndSend signer txns t)
  end.

(** [c] only adds, to whatever trace it starts from, calls that satisfy
    [allowed]. *)
Definition emits_only (allowed : Event -> Prop) {A : Type} (c : Async A) : Prop :=
  forall t, exists new, fst (c t) = (t ++ new)%list /\ Forall allowed new.

(** A call to one of a route's own methods. *)
Definition is_route_method (ev : Event) : bool :=
  match ev with
  | RouteValidate _ _ _ | RouteQuote _ _ _ | RouteInitiate _ _ _ _ _ _ => true
  | _ => false
  end.

(** [e instanceof class] for an error class that no other class extends,
    such as [TransferFailedError] or [QuoteFailedError]. *)
Definition instanceof (class : string) (e : JsError) : bool :=
  String.eqb (err_name e) class.

(* ===================================================================== *)
(** ** Concrete inputs                                                    *)
(* ===================================================================== *)

Definition fee_option (x : Q) (label : string) (time : string) : RouteOption :=
  {| type := label; name := label; description := ""; fee := "";
     feeAmount := x; estimatedTime := time; isAutomatic := false |}.

Definition USDC_on_Base : TokenId :=
  {| tid_chain := "Base"; tid_address := "0x833589fCD6eDb6E08f4c7C32D4f71b54bdA02913" |}.

Definition quote_of (relay : option RelayFee) (ms : option Z) : Quote :=
  {| success := true; quote_error := None;
     destinationToken := Some {| dt_token := USDC_on_Base |};
     relayFee := relay; eta := ms |}.

(** A route object whose methods answer the same way whatever was called
    before. *)
Definition fixed_route (kind : string) (v : Outcome ValidationResult)
    (q : Outcome Quote) (r : Outcome (option Receipt)) : Route :=
  {| constructor_name := kind;
     validate := fun _ _ _ => v;
     quote := fun _ _ _ => q;
     initiate := fun _ _ _ _ _ _ => r |}.

Definition accepted : ValidationResult :=
  {| valid := true; validation_error := None; params := validated_params 1 |}.

Definition manual_cctp : Route :=
  fixed_route "CCTPRoute" (Returned accepted) (Returned (quote_of None (Some 900000)))
              (Returned None).

Definition automatic_cctp : Route :=
  fixed_route "AutomaticCCTPRoute" (Returned accepted)
              (Returned (quote_of None (Some 900000))) (Returned None).

Definition half_usdc_fee : RelayFee :=
  {| rf_token := {| symbol := Some "USDC" |};
     rf_amount := {| amt_amount := 500000; amt_decimals := 6 |} |}.


Definition alice : Account := {| account_address := "0xA11ce0000000000000000000000000000000B0b5" |}.

Definition ethereum : Chain := {| chain_id := 1; chain_name := "Ethereum" |}.

Definition user_rejected : JsError :=
  mkError "UserRejectedRequestError" None "User rejected the request.".

(** A wallet whose user declines every request. *)
Definition declining_wallet : WalletClient :=
  {| account := Some alice; chain := Some ethereum;
     wallet_sendTransaction := fun _ _ => Thrown user_rejected |}.

(** A wallet whose user accepts every request; the hash tells how many calls
    had been made. *)
Definition obliging_wallet : WalletClient :=
  {| account := Some alice; chain := Some ethereum;
     wallet_sendTransaction :=
       fun t _ => Returned ("0xhash" ++ decimal (N.of_nat (length t))) |}.

Definition quiet_chain (_ : Chain) : PublicClient :=
  {| getBlock := fun _ => Returned {| baseFeePerGas := Some 7 |};
     getGasPrice := fun _ => Returned 30;
     getBlockNumber := fun _ => Returned 100;
     getTransactionCount := fun _ _ => Returned 5;
     waitForTransactionReceipt := fun _ _ => Returned (transaction_receipt 101) |}.

Definition approval : UnsignedTransaction :=
  {| transaction :=
       {| to := Some "0xA0b86991c6218b36c1d19D4a2e9Eb0cE3606eB48";
          data := Some "0x095ea7b3"; value := Some 0; gasLimit := Some 60000;
          maxFeePerGas := None; maxPriorityFeePerGas := None; nonce := Some 5 |};
     txn_description := "ERC20.approve" |}.

Definition transfer : UnsignedTransaction :=
  {| transaction :=
       {| to := Some "0xBd3fa81B58Ba92a82136038B25aDec7066af3155";
          data := Some "0x6fd3504e"; value := None; gasLimit := Some 200000;
          maxFeePerGas := None; maxPriorityFeePerGas := None; nonce := Some 6 |};
     txn_description := "CircleBridge.transferTokens" |}.

Definition usdc_request : TransferRequest :=
  {| source := {| tid_chain := "Ethereum";
                  tid_address := "0xA0b86991c6218b36c1d19D4a2e9Eb0cE3606eB48" |};
     destination := USDC_on_Base;
     sender := Some {| pa_chain := "Ethereum"; pa_text := account_address alice |};
     receiver := Some {| pa_chain := "Base"; pa_text := account_address alice |} |}.

(** A route that finds the amount too small. *)
Definition too_small_route : Route :=
  fixed_route "CCTPRoute"
    (Returned {| valid := false; validation_error := Some "Amount too small";
                 params := validated_params 0 |})
    (Returned (quote_of None (Some 900000))) (Returned None).

(** A route that validates but cannot quote. *)
Definition unquotable_route : Route :=
  fixed_route "CCTPRoute" (Returned accepted)
    (Returned {| success := false; quote_error := Some "Relayer unavailable";
                 destinationToken := None; relayFee := None; eta := None |})
    (Returned None).

(** The receipt of an approval followed by the transfer itself. *)
Definition two_step_receipt : Receipt :=
  {| originTxs := Some [ {| tx_txid := "0xaaa1"; tx_chain := "Ethereum" |};
                         {| tx_txid := "0xbbb2"; tx_chain := "Ethereum" |} ];
     txid := None; hash := None |}.

Definition two_step_route : Route :=
  fixed_route "CCTPRoute" (Returned accepted)
    (Returned (quote_of None (Some 900000))) (Returned (Some two_step_receipt)).

Definition transfer_args (route : Route) (signer : ViemWormholeSigner) : InitiateParams :=
  {| ip_route := route; ip_transferRequest := usdc_request; ip_signer := signer;
     ip_wh := wh_handle "Mainnet"; ip_destAddress := account_address alice;
     ip_amount := "10" |}.

(** A protocol that knows the chains and the token but no destination token
    for the pair. *)
Definition no_destination_sdk : Sdk :=
  {| wormhole := fun _ network => Returned (wh_handle network);
     wh_resolver := fun _ kinds => Returned (resolver_handle kinds);
     wh_getChain := fun _ chainName => Returned {| cc_chain := chainName |};
     Wormhole_tokenId := fun chainName addr =>
       Returned {| tid_chain := chainName; tid_address := addr |};
     Wormhole_parseAddress := fun chainName addr =>
       Returned {| pa_chain := chainName; pa_text := addr |};
     supportedDestinationTokens := fun _ _ _ _ _ => Returned (Some []);
     RouteTransferRequest_create := fun _ _ src dst =>
       Returned {| source := src; destination := dst; sender := None; receiver := None |};
     findRoutes := fun _ _ _ => Returned (Some [manual_cctp]) |}.

Definition usdc_to_base : QuoteParams :=
  {| qp_sourceChain := "Ethereum"; qp_destChain := "Base";
     qp_tokenAddress := "0xA0b86991c6218b36c1d19D4a2e9Eb0cE3606eB48";
     qp_amount := "10";
     qp_sourceAddress := account_address alice;
     qp_destAddress := account_address alice |}.

(* ===================================================================== *)
(** ** Error utilities ([src/lib/wormhole-sdk/core/errors.ts])            *)
(* ===================================================================== *)

(** The string value of an enum member. *)
Definition code_value (c : WormholeErrorCode) : string :=
  match c with
  | INVALID_CONFIG => "INVALID_CONFIG"
  | NETWORK_NOT_SUPPORTED => "NETWORK_NOT_SUPPORTED"
  | CHAIN_NOT_FOUND => "CHAIN_NOT_FOUND"
  | CHAIN_NOT_SUPPORTED => "CHAIN_NOT_SUPPORTED"
  | TOKEN_NOT_FOUND => "TOKEN_NOT_FOUND"
  | INVALID_TOKEN_ADDRESS => "INVALID_TOKEN_ADDRESS"
  | INSUFFICIENT_BALANCE => "INSUFFICIENT_BALANCE"
  | NO_ROUTES_FOUND => "NO_ROUTES_FOUND"
  | ROUTE_VALIDATION_FAILED => "ROUTE_VALIDATION_FAILED"
  | QUOTE_FAILED => "QUOTE_FAILED"
  | QUOTE_EXPIRED => "QUOTE_EXPIRED"
  | TRANSFER_FAILED => "TRANSFER_FAILED"
  | APPROVAL_FAILED => "APPROVAL_FAILED"
  | INSUFFICIENT_ALLOWANCE => "INSUFFICIENT_ALLOWANCE"
  | TX_REJECTED => "TX_REJECTED"
  | TX_TIMEOUT => "TX_TIMEOUT"
  | TX_FAILED => "TX_FAILED"
  | WALLET_NOT_CONNECTED => "WALLET_NOT_CONNECTED"
  | WALLET_WRONG_NETWORK => "WALLET_WRONG_NETWORK"
  | UNKNOWN_ERROR => "UNKNOWN_ERROR"
  end.

(** [a === b] on enum members. *)
Definition code_eqb (a b : WormholeErrorCode) : bool :=
  String.eqb (code_value a) (code_value b).

(** [new WormholeError(message, code)]; [details] and [timestamp] are not
    read by any function below. *)
Definition WormholeError (message : string) (code : WormholeErrorCode) : JsError :=
  mkError "WormholeError" (Some code) message.

(** [new QuoteExpiredError()]. *)
Definition QuoteExpiredError : JsError :=
  mkError "QuoteExpiredError" (Some QUOTE_EXPIRED)
          "Quote has expired, please fetch a new quote".

(** [new TransactionRejectedError()]. *)
Definition TransactionRejectedError : JsError :=
  mkError "TransactionRejectedError" (Some TX_REJECTED)
          "Transaction was rejected by user".

(** [new TransactionTimeoutError(txHash)]. *)
Definition TransactionTimeoutError (txHash : option string) : JsError :=
  mkError "TransactionTimeoutError" (Some TX_TIMEOUT)
          (if truthy_string txHash
           then "Transaction " ++ or_default txHash "" ++ " timed out"
           else "Transaction timed out").

(** A caught value of type [unknown]: an [Error] object, a string, or
    anything else. *)
Inductive Caught : Type :=
| CaughtError (e : JsError)
| CaughtString (s : string)
| CaughtOther.

(** [isWormholeError(error)] on a caught value. *)
Definition caught_isWormholeError (error : Caught) : bool :=
  match error with
  | CaughtError e => isWormholeError e
  | _ => false
  end.

Definition hasErrorCode (error : Caught) (code : WormholeErrorCode) : bool :=
  match error with
  | CaughtError e =>
      match err_code e with
      | Some c => code_eqb c code
      | None => false
      end
  | _ => false
  end.

Definition getErrorMessage (error : Caught) : string :=
  match error with
  | CaughtError e => err_message e
  | CaughtString s => s
  | CaughtOther => "An unknown error occurred"
  end.

Definition toWormholeError (error : Caught) : JsError :=
  match error with
  | CaughtError e =>
      if isWormholeError e then e
      else WormholeError (err_message e) UNKNOWN_ERROR
  | _ => WormholeError (getErrorMessage error) UNKNOWN_ERROR
  end.

(** [wrapError(promise, errorFactory)]. *)
Definition wrapError {A : Type} (promise : Async A)
    (errorFactory : option (Caught -> JsError)) : Async A :=
  fun t =>
    match promise t with
    | (t', Returned a) => (t', Returned a)
    | (t', Thrown error) =>
        match errorFactory with
        | Some factory => (t', Thrown (factory (CaughtError error)))
        | None => (t', Thrown (toWormholeError (CaughtError error)))
        end
    end.

(** [c.toLowerCase()] on an ASCII letter. *)
Definition lower_ascii (c : ascii) : ascii :=
  let n := nat_of_ascii c in
  if ((65 <=? n) && (n <=? 90))%nat then ascii_of_nat (n + 32) else c.

Fixpoint toLowerCase (s : string) : string :=
  match s with
  | String c s' => String (lower_ascii c) (toLowerCase s')
  | EmptyString => EmptyString
  end.

Definition isUserRejection (error : Caught) : bool :=
  let message := toLowerCase (getErrorMessage error) in
  includes message "user rejected"
  || includes message "user denied"
  || includes message "user cancelled"
  || includes message "user canceled"
  || includes message "user disapproved"
  || hasErrorCode error TX_REJECTED.

Definition isNetworkError (error : Caught) : bool :=
  let message := toLowerCase (getErrorMessage error) in
  includes message "network"
  || includes message "connection"
  || includes message "timeout"
  || hasErrorCode error TX_TIMEOUT.

Definition isRecoverableError (error : Caught) : bool :=
  match error with
  | CaughtError e =>
      match err_code e with
      | Some code =>
          existsb (code_eqb code) [TX_TIMEOUT; QUOTE_EXPIRED] || isNetworkError error
      | None => isNetworkError error
      end
  | _ => isNetworkError error
  end.

Definition formatErrorForUser (error : Caught) : string :=
  if isUserRejection error then "Transaction was cancelled"
  else if caught_isWormholeError error then getErrorMessage error
  else if isNetworkError error
       then "Network error. Please check your connection and try again."
       else "An unexpected error occurred. Please try again.".

(* ===================================================================== *)
(** ** Chain and route tables ([src/app/lib/chains.ts],
       [src/lib/wormhole-sdk/core/constants.ts], [types.ts])              *)
(* ===================================================================== *)

(** [ChainId = keyof typeof CHAINS]. *)
Inductive ChainId : Type :=
| chain_1 | chain_137 | chain_42161 | chain_10 | chain_8453 | chain_56 | chain_43114.

Record ChainInfo : Type := mkChainInfo {
  ci_id : Z;
  ci_name : string;
  ci_nativeCurrency : string
}.

(** The key of an entry of [CHAINS]. *)
Definition chain_key (c : ChainId) : Z :=
  match c with
  | chain_1 => 1
  | chain_137 => 137
  | chain_42161 => 42161
  | chain_10 => 10
  | chain_8453 => 8453
  | chain_56 => 56
  | chain_43114 => 43114
  end.

(** [CHAINS[c]]. *)
Definition CHAINS (c : ChainId) : ChainInfo :=
  match c with
  | chain_1 => {| ci_id := 1; ci_name := "Ethereum"; ci_nativeCurrency := "ETH" |}
  | chain_137 => {| ci_id := 137; ci_name := "Polygon"; ci_nativeCurrency := "MATIC" |}
  | chain_42161 => {| ci_id := 42161; ci_name := "Arbitrum"; ci_nativeCurrency := "ETH" |}
  | chain_10 => {| ci_id := 10; ci_name := "Optimism"; ci_nativeCurrency := "ETH" |}
  | chain_8453 => {| ci_id := 8453; ci_name := "Base"; ci_nativeCurrency := "ETH" |}
  | chain_56 => {| ci_id := 56; ci_name := "BSC"; ci_nativeCurrency := "BNB" |}
  | chain_43114 => {| ci_id := 43114; ci_name := "Avalanche"; ci_nativeCurrency := "AVAX" |}
  end.

(** The entries of the object literals, in source order. *)
Definition EVM_CHAIN_ID_TO_WORMHOLE_CHAIN : list (Z * string) :=
  [ (1, "Ethereum"); (10, "Optimism"); (56, "BSC"); (137, "Polygon");
    (8453, "Base"); (42161, "Arbitrum"); (43114, "Avalanche") ].

Definition WORMHOLE_CHAIN_TO_EVM_CHAIN_ID : list (string * Z) :=
  [ ("Ethereum", 1); ("Optimism", 10); ("BSC", 56); ("Polygon", 137);
    ("Base", 8453); ("Arbitrum", 42161); ("Avalanche", 43114) ].

Definition EXPLORERS : list (string * string) :=
  [ ("Ethereum", "https://etherscan.io");
    ("Optimism", "https://optimistic.etherscan.io");
    ("BSC", "https://bscscan.com");
    ("Polygon", "https://polygonscan.com");
    ("Base", "https://basescan.org");
    ("Arbitrum", "https://arbiscan.io");
    ("Avalanche", "https://snowtrace.io") ].

Definition USDC_ADDRESSES : list (string * string) :=
  [ ("Ethereum", "0xA0b86991c6218b36c1d19D4a2e9Eb0cE3606eB48");
    ("Optimism", "0x0b2C639c533813f4Aa9D7837CAf62653d097Ff85");
    ("BSC", "0x8AC76a51cc950d9822D68b83fE1Ad97B32Cd580d");
    ("Polygon", "0x2791Bca1f2de4661ED88A30C99A7a9449Aa84174");
    ("Base", "0x833589fCD6eDb6E08f4c7C32D4f71b54bdA02913");
    ("Arbitrum", "0xaf88d065e77c8cC2239327C5EDb3A432268e5831");
    ("Avalanche", "0xB97EF9Ef8734C71904D8002F8b6Bc66Dd9c48a6E") ].

(** [VALIDATION.EVM_ADDRESS_REGEX.test(s)]: [/^0x[a-fA-F0-9]{40}$/]. *)
Definition is_hex (c : ascii) : bool :=
  let n := nat_of_ascii c in
  (((48 <=? n) && (n <=? 57)) || ((65 <=? n) && (n <=? 70))
   || ((97 <=? n) && (n <=? 102)))%nat.

Definition EVM_ADDRESS_REGEX_test (s : string) : bool :=
  match s with
  | String "0"%char (String "x"%char digits) =>
      (String.length digits =? 40)%nat && string_forall is_hex digits
  | _ => false
  end.

(** [enum RouteType]; [route_type_value] is the member's string. *)
Inductive RouteType : Type :=
| AUTOMATIC_CCTP | CCTP_MANUAL | TOKEN_BRIDGE_AUTO | TOKEN_BRIDGE_MANUAL.

Definition route_type_value (rt : RouteType) : string :=
  match rt with
  | AUTOMATIC_CCTP => "AutomaticCCTPRoute"
  | CCTP_MANUAL => "CCTPRoute"
  | TOKEN_BRIDGE_AUTO => "AutomaticTokenBridgeRoute"
  | TOKEN_BRIDGE_MANUAL => "TokenBridgeRoute"
  end.

Definition DEFAULT_ROUTE_PRIORITY : list RouteType :=
  [AUTOMATIC_CCTP; CCTP_MANUAL; TOKEN_BRIDGE_AUTO; TOKEN_BRIDGE_MANUAL].

Definition CHEAPEST_ROUTE_PRIORITY : list RouteType :=
  [CCTP_MANUAL; TOKEN_BRIDGE_MANUAL; AUTOMATIC_CCTP; TOKEN_BRIDGE_AUTO].

Definition FASTEST_ROUTE_PRIORITY : list RouteType :=
  [AUTOMATIC_CCTP; CCTP_MANUAL; TOKEN_BRIDGE_AUTO; TOKEN_BRIDGE_MANUAL].

Record RouteMetadata : Type := mkRouteMetadata {
  md_name : string;
  md_description : string;
  md_averageTime : Z;
  md_reliability : string;
  md_requiresManualClaim : bool;
  md_isAutomatic : bool;
  md_supportedTokens : list string
}.

(** [ROUTE_METADATA[rt]]. *)
Definition ROUTE_METADATA (rt : RouteType) : RouteMetadata :=
  match rt with
  | AUTOMATIC_CCTP =>
      {| md_name := "Fast CCTP (Automatic)";
         md_description := "Fastest delivery with automatic relayer - includes relay fee";
         md_averageTime := 15 * 60 * 1000;
         md_reliability := "high";
         md_requiresManualClaim := false;
         md_isAutomatic := true;
         md_supportedTokens := ["USDC"] |}
  | CCTP_MANUAL =>
      {| md_name := "Fast CCTP (Manual)";
         md_description := "Fast delivery - requires manual claim on destination chain";
         md_averageTime := 15 * 60 * 1000;
         md_reliability := "high";
         md_requiresManualClaim := true;
         md_isAutomatic := false;
         md_supportedTokens := ["USDC"] |}
  | TOKEN_BRIDGE_AUTO =>
      {| md_name := "Token Bridge (Automatic)";
         md_description := "Automatic delivery via Token Bridge - may take longer";
         md_averageTime := 60 * 60 * 1000;
         md_reliability := "medium";
         md_requiresManualClaim := false;
         md_isAutomatic := true;
         md_supportedTokens := ["*"] |}
  | TOKEN_BRIDGE_MANUAL =>
      {| md_name := "Token Bridge (Manual)";
         md_description := "Cheapest option - requires manual claim and takes ~12+ days";
         md_averageTime := 12 * 24 * 60 * 60 * 1000;
         md_reliability := "medium";
         md_requiresManualClaim := true;
         md_isAutomatic := false;
         md_supportedTokens := ["*"] |}
  end.

(* ===================================================================== *)
(** ** Route selector ([src/app/components/RouteSelector.tsx])            *)
(* ===================================================================== *)


(* ===================================================================== *)
(** ** Bridge component handlers ([src/app/components/Bridge.tsx])        *)
(* ===================================================================== *)

(** What [transferStatus] shows: a text, or the "Transfer initiated" element
    with its scanner link. *)
Inductive StatusView : Type :=
| StatusText (text : string)
| StatusInitiated (url : string).

(** The [useState] cells that the two handlers write. *)
Record BridgeState : Type := mkBridgeState {
  isTransferring : bool;
  transferStatus : StatusView;
  bridge_quote : option (Quote * string);
  showPreview : bool
}.

(** What the handlers read of the render they were created in.
    [tokenAddress] is [selectedTokenInfo?.address], looked up in the token
    table of [src/app/lib/tokens.ts]. *)
Record BridgeProps : Type := mkBridgeProps {
  isConnected : bool;
  address : option string;
  walletClient : option WalletClient;
  amount : string;
  sourceChain : ChainId;
  destChain : ChainId;
  tokenAddress : option string
}.

Definition setIsTransferring (b : bool) (s : BridgeState) : BridgeState :=
  {| isTransferring := b; transferStatus := transferStatus s;
     bridge_quote := bridge_quote s; showPreview := showPreview s |}.

Definition setTransferStatus (v : StatusView) (s : BridgeState) : BridgeState :=
  {| isTransferring := isTransferring s; transferStatus := v;
     bridge_quote := bridge_quote s; showPreview := showPreview s |}.

Definition setQuote (q : option (Quote * string)) (s : BridgeState) : BridgeState :=
  {| isTransferring := isTransferring s; transferStatus := transferStatus s;
     bridge_quote := q; showPreview := showPreview s |}.

Definition setShowPreview (b : bool) (s : BridgeState) : BridgeState :=
  {| isTransferring := isTransferring s; transferStatus := transferStatus s;
     bridge_quote := bridge_quote s; showPreview := b |}.

(** [`${v}`] of an optional string. *)
Definition template_string (v : option string) : string :=
  match v with
  | Some s => s
  | None => "undefined"
  end.

(** [`Error: ${error.message || 'Transfer failed'}`]. *)
Definition error_status (error : JsError) : StatusView :=
  StatusText ("Error: " ++ or_default (Some (err_message error)) "Transfer failed").

(** The parameters both handlers give to [getTransferQuote]. *)
Definition quote_params (props : BridgeProps) (tokenAddress addr : string) : QuoteParams :=
  {| qp_sourceChain := ci_name (CHAINS (sourceChain props));
     qp_destChain := ci_name (CHAINS (destChain props));
     qp_tokenAddress := tokenAddress;
     qp_amount := amount props;
     qp_sourceAddress := addr;
     qp_destAddress := addr |}.

Section BridgeHandlers.
Variable sdk : Sdk.
Variable createPublicClient : Chain -> PublicClient.

Definition handlePreviewTransaction (props : BridgeProps) (s : BridgeState) (t : Trace)
  : Trace * BridgeState :=
  match isConnected props, address props, walletClient props with
  | true, Some addr, Some _ =>
      if String.eqb addr "" || String.eqb (amount props) "" then
        (t, setTransferStatus (StatusText "Please connect wallet and enter amount") s)
      else
        let s := setIsTransferring true s in
        let s := setTransferStatus (StatusText "Getting route quote...") s in
        let catch (error : JsError) (s : BridgeState) :=
          setIsTransferring false (setTransferStatus (error_status error) s) in
        if negb (truthy_string (tokenAddress props)) then
          (t, setTransferStatus (StatusText "Invalid token selected") s)
        else
          match getTransferQuote sdk
                  (quote_params props (or_default (tokenAddress props) "") addr) t with
          | (t, Thrown error) => (t, catch error s)
          | (t, Returned found) =>
              let route := qr_route found in
              let transferRequest := qr_transferRequest found in
              let s := setTransferStatus (StatusText "Quote received...") s in
              let s := setQuote None s in
              let s := setTransferStatus (StatusText "Getting quote...") s in
              let transferParams := {| tp_amount := amount props; tp_nativeGas := 0 |} in
              match call (RouteValidate (constructor_name route) transferRequest
                             transferParams)
                      (fun t => validate route t transferRequest transferParams) t with
              | (t, Thrown error) => (t, catch error s)
              | (t, Returned validated) =>
                  if negb (valid validated) then
                    (t, setTransferStatus
                          (StatusText ("Validation failed: "
                                       ++ template_string (validation_error validated))) s)
                  else
                    match call (RouteQuote (constructor_name route) transferRequest
                                   (params validated))
                            (fun t => quote route t transferRequest (params validated)) t
                    with
                    | (t, Thrown error) => (t, catch error s)
                    | (t, Returned quoteResult) =>
                        if negb (success quoteResult) then
                          (t, setTransferStatus
                                (StatusText ("Quote failed: "
                                             ++ template_string (quote_error quoteResult))) s)
                        else
                          let s := setQuote (Some (quoteResult, constructor_name route)) s in
                          let s := setShowPreview true s in
                          let s := setTransferStatus
                                     (StatusText "Review the transaction details below") s in
                          (t, setIsTransferring false s)
                    end
              end
          end
  | _, _, _ =>
      (t, setTransferStatus (StatusText "Please connect wallet and enter amount") s)
  end.

Definition handleConfirmTransfer (props : BridgeProps) (s : BridgeState) (t : Trace)
  : Trace * BridgeState :=
  match isConnected props, address props, walletClient props, bridge_quote s with
  | true, Some addr, Some walletClient, Some _ =>
      if String.eqb addr "" then (t, s)
      else
        let s := setIsTransferring true s in
        let s := setTransferStatus (StatusText "Preparing transaction...") s in
        let catch (error : JsError) (s : BridgeState) :=
          setTransferStatus (error_status error) s in
        let finally (s : BridgeState) := setIsTransferring false s in
        if negb (truthy_string (tokenAddress props)) then
          (t, finally (setTransferStatus (StatusText "Invalid token selected") s))
        else
          match getTransferQuote sdk
                  (quote_params props (or_default (tokenAddress props) "") addr) t with
          | (t, Thrown error) => (t, finally (catch error s))
          | (t, Returned found) =>
              let s := setTransferStatus (StatusText "Waiting for wallet approval...") s in
              match createWormholeSigner createPublicClient walletClient (qr_wh found)
                      (ci_name (CHAINS (sourceChain props))) with
              | Thrown error => (t, finally (catch error s))
              | Returned signer =>
                  let s := setTransferStatus
                             (StatusText "Step 1/2: Approving token...") s in
                  match initiateTransfer
                          {| ip_route := qr_route found;
                             ip_transferRequest := qr_transferRequest found;
                             ip_signer := signer;
                             ip_wh := qr_wh found;
                             ip_destAddress := addr;
                             ip_amount := amount props |} t with
                  | (t, Thrown error) => (t, finally (catch error s))
                  | (t, Returned receipt) =>
                      let txHash := Bridge_txHash receipt in
                      let s := setTransferStatus
                                 (StatusInitiated (wormholeUrl txHash)) s in
                      (t, finally (setQuote None s))
                  end
              end
          end
  | _, _, _, _ => (t, s)
  end.
End BridgeHandlers.

(* ===================================================================== *)
(** ** Further concrete inputs                                            *)
(* ===================================================================== *)


(** A protocol that offers the given routes for USDC from Ethereum to Base. *)
Definition offering_sdk (found : option (list Route)) : Sdk :=
  {| wormhole := fun _ network => Returned (wh_handle network);
     wh_resolver := fun _ kinds => Returned (resolver_handle kinds);
     wh_getChain := fun _ chainName => Returned {| cc_chain := chainName |};
     Wormhole_tokenId := fun chainName addr =>
       Returned {| tid_chain := chainName; tid_address := addr |};
     Wormhole_parseAddress := fun chainName addr =>
       Returned {| pa_chain := chainName; pa_text := addr |};
     supportedDestinationTokens := fun _ _ _ _ _ => Returned (Some [USDC_on_Base]);
     RouteTransferRequest_create := fun _ _ src dst =>
       Returned {| source := src; destination := dst; sender := None; receiver := None |};
     findRoutes := fun _ _ _ => Returned found |}.

Definition USDC_on_Ethereum : TokenId :=
  {| tid_chain := "Ethereum";
     tid_address := "0xA0b86991c6218b36c1d19D4a2e9Eb0cE3606eB48" |}.

(** A call that submits or signs something: the wallet's two requests and a
    route's [initiate]. *)
Definition is_submission (ev : Event) : bool :=
  match ev with
  | WalletSendTransaction _ | WalletSignTransaction _
  | RouteInitiate _ _ _ _ _ _ => true
  | _ => false
  end.

(** A bridge state showing a stored quote, as after a preview. *)
Definition previewed_state : BridgeState :=
  {| isTransferring := false;
     transferStatus := StatusText "Review the transaction details below";
     bridge_quote := Some (quote_of None (Some 900000), "CCTPRoute");
     showPreview := true |}.

Definition idle_state : BridgeState :=
  {| isTransferring := false; transferStatus := StatusText "";
     bridge_quote := None; showPreview := false |}.

(** A connected user sending 10 USDC from Ethereum to Base. *)
Definition connected_props (token : option string) : BridgeProps :=
  {| isConnected := true;
     address := Some (account_address alice);
     walletClient := Some obliging_wallet;
     amount := "10";
     sourceChain := chain_1;
     destChain := chain_8453;
     tokenAddress := token |}.

(* ===================================================================== *)
(** * Properties                                                          *)
(* ===================================================================== *)

(** ** Integer division by the unit sizes *)

Lemma nested_units (ms : Z) :
  ms / 1000 / 60 = ms / 60000 /\
  ms / 1000 / 60 / 60 = ms / 3600000 /\
  ms / 1000 / 60 / 60 / 24 = ms / 86400000.
Proof.
  repeat split; repeat (rewrite Z.div_div by lia); reflexivity.
Qed.

Lemma formatETA_cases (ms : Z) :
  0 <= ms ->
  formatETA ms =
    if 86400000 <=? ms then
      "~" ++ decimal (Z.to_N (ms / 86400000)) ++ " day"
          ++ (if 172800000 <=? ms then "s" else "")
    else if 3600000 <=? ms then
      "~" ++ decimal (Z.to_N (ms / 3600000)) ++ " hour"
          ++ (if 7200000 <=? ms then "s" else "")
    else if 60000 <=? ms then
      "~" ++ decimal (Z.to_N (ms / 60000)) ++ " min"
    else
      "~" ++ decimal (Z.to_N (ms / 1000)) ++ " sec".
Proof.
  intros Hms. unfold formatETA, number_to_string.
  destruct (nested_units ms) as (Hm & Hh & Hd).
  rewrite Hd, Hh, Hm.
  assert (Hs0 : 0 <= ms / 1000) by (apply Z.div_pos; lia).
  assert (Hm0 : 0 <= ms / 60000) by (apply Z.div_pos; lia).
  assert (Hh0 : 0 <= ms / 3600000) by (apply Z.div_pos; lia).
  assert (Hd0 : 0 <= ms / 86400000) by (apply Z.div_pos; lia).
  repeat match goal with
         | |- context [ ?a <? ?b ] => destruct (Z.ltb_spec a b)
         | |- context [ ?a <=? ?b ] => destruct (Z.leb_spec a b)
         end; try reflexivity; exfalso;
    Z.to_euclidean_division_equations; lia.
Qed.

(** ** C3: the ETA string *)




(** ** The stable sort *)

Section ArraySortFacts.
Context {A : Type}.
Variable gt : A -> A -> bool.

Lemma sort_insert_perm (a : A) (l : list A) :
  Permutation (sort_insert gt a l) (a :: l).
Proof.
  induction l as [| y l IH]; simpl.
  - apply Permutation_refl.
  - destruct (gt a y).
    + eapply perm_trans; [apply perm_skip, IH | apply perm_swap].
    + apply Permutation_refl.
Qed.

Lemma array_sort_perm (l : list A) : Permutation (array_sort gt l) l.
Proof.
  induction l as [| a l IH]; simpl.
  - apply perm_nil.
  - eapply perm_trans; [apply sort_insert_perm | apply perm_skip, IH].
Qed.

(** Stability: a class [p] of elements none of which the comparator puts
    after another keeps its elements in their input order. *)
Section Stable.
Variable p : A -> bool.
Hypothesis p_tied : forall x y, p x = true -> p y = true -> gt x y = false.

Lemma filter_sort_insert (a : A) (l : list A) :
  filter p (sort_insert gt a l) = filter p (a :: l).
Proof.
  induction l as [| y l IH]; [reflexivity |].
  cbn [sort_insert]. destruct (gt a y) eqn:Hgt; [| reflexivity].
  cbn [filter] in *. rewrite IH.
  destruct (p a) eqn:Hpa, (p y) eqn:Hpy; try reflexivity.
  rewrite (p_tied a y Hpa Hpy) in Hgt. discriminate.
Qed.

Lemma filter_array_sort (l : list A) :
  filter p (array_sort gt l) = filter p l.
Proof.
  induction l as [| a l IH]; [reflexivity |].
  cbn [array_sort]. rewrite filter_sort_insert. cbn [filter].
  rewrite IH. reflexivity.
Qed.
End Stable.

(** Order: on a domain [dom] where "not after" is total and transitive, the
    result is ascending. *)
Section Ordered.
Variable dom : A -> Prop.
Hypothesis gt_asym :
  forall x y, dom x -> dom y -> gt x y = true -> gt y x = false.
Hypothesis le_trans :
  forall x y z, dom x -> dom y -> dom z ->
                gt x y = false -> gt y z = false -> gt x z = false.

Let le (x y : A) : Prop := gt x y = false.

Lemma sort_insert_sorted (a : A) (l : list A) :
  dom a -> Forall dom l ->
  StronglySorted le l -> StronglySorted le (sort_insert gt a l).
Proof.
  intros Ha Hl Hs. induction Hs as [| y l Hs IH Hy]; cbn [sort_insert].
  - constructor; constructor.
  - inversion Hl as [| ? ? Hdy Hdl]; subst.
    destruct (gt a y) eqn:Hgt.
    + constructor; [apply IH; assumption |].
      eapply Permutation_Forall;
        [apply Permutation_sym, sort_insert_perm |].
      constructor; [apply gt_asym; assumption | assumption].
    + constructor; [constructor; assumption |].
      constructor; [assumption |].
      rewrite Forall_forall in *. intros x Hx.
      apply (le_trans a y x); auto. apply Hy; assumption.
Qed.

Lemma array_sort_sorted (l : list A) :
  Forall dom l -> StronglySorted le (array_sort gt l).
Proof.
  induction l as [| a l IH]; intros Hl; cbn [array_sort].
  - constructor.
  - inversion Hl; subst. apply sort_insert_sorted; auto.
    eapply Permutation_Forall;
      [apply Permutation_sym, array_sort_perm | assumption].
Qed.
End Ordered.
End ArraySortFacts.

Lemma StronglySorted_weaken {A : Type} (dom : A -> Prop) (R R' : A -> A -> Prop)
    (l : list A) :
  (forall x y, dom x -> dom y -> R x y -> R' x y) ->
  Forall dom l -> StronglySorted R l -> StronglySorted R' l.
Proof.
  intros HR Hdom Hs. induction Hs as [| a l Hs IH Ha]; constructor.
  - apply IH. inversion Hdom; assumption.
  - inversion Hdom as [| ? ? Hda Hdl]; subst.
    rewrite Forall_forall in *. intros x Hx. apply HR; auto.
Qed.

(** ** C7: sorting by fee *)

Lemma fee_gt_false (a b : RouteOption) :
  fee_gt a b = false <-> (feeAmount a <= feeAmount b)%Q.
Proof.
  unfold fee_gt. rewrite negb_false_iff, Qle_bool_iff. split; intros H; lra.
Qed.

Lemma fee_gt_true (a b : RouteOption) :
  fee_gt a b = true <-> (feeAmount b < feeAmount a)%Q.
Proof.
  rewrite <- not_false_iff_true, fee_gt_false. split; intros H; lra.
Qed.

(** C7.  [sortRoutesByFee] returns the options rearranged in ascending order
    of fee magnitude, options of equal fee keeping their input order; three
    options with fees 0, 5, 2 come out as first, third, second, whatever their
    other fields are. *)
Theorem sortRoutesByFee_stable_ascending :
  (forall routes,
      Permutation (sortRoutesByFee routes) routes /\
      StronglySorted (fun a b => (feeAmount a <= feeAmount b)%Q)
                     (sortRoutesByFee routes) /\
      forall q : Q,
        filter (fun o => Qeq_bool (feeAmount o) q) (sortRoutesByFee routes)
        = filter (fun o => Qeq_bool (feeAmount o) q) routes) /\
  (forall a b c,
      (feeAmount a == 0)%Q -> (feeAmount b == 5)%Q -> (feeAmount c == 2)%Q ->
      sortRoutesByFee [a; b; c] = [a; c; b]).
Proof.
  split.
  - intros routes. unfold sortRoutesByFee. split; [apply array_sort_perm |]. split.
    + assert (Hall : forall l : list RouteOption, Forall (fun _ => True) l).
      { intros l. apply Forall_forall. intros; exact I. }
      apply StronglySorted_weaken
        with (dom := fun _ => True) (R := fun x y => fee_gt x y = false).
      { intros x y _ _. apply fee_gt_false. }
      { apply Hall. }
      apply array_sort_sorted with (dom := fun _ => True).
      * intros x y _ _ H. apply fee_gt_true in H. apply fee_gt_false. lra.
      * intros x y z _ _ _ H1 H2. apply fee_gt_false in H1, H2.
        apply fee_gt_false. lra.
      * apply Hall.
    + intros q. apply filter_array_sort. intros x y Hx Hy.
      apply Qeq_bool_iff in Hx, Hy. apply fee_gt_false. lra.
  - intros a b c Ha Hb Hc. unfold sortRoutesByFee. cbn [array_sort sort_insert].
    assert (Hbc : fee_gt b c = true) by (apply fee_gt_true; lra).
    assert (Hab : fee_gt a b = false) by (apply fee_gt_false; lra).
    assert (Hac : fee_gt a c = false) by (apply fee_gt_false; lra).
    rewrite Hbc. cbn [sort_insert]. rewrite Hac. reflexivity.
Qed.

Lemma sortRoutesByFee_stable_ascending_witness :
  sortRoutesByFee [fee_option 0 "a" "~2 days"; fee_option 5 "b" "~1 min";
                   fee_option 2 "c" "~3 hours"]
  = [fee_option 0 "a" "~2 days"; fee_option 2 "c" "~3 hours";
     fee_option 5 "b" "~1 min"].
Proof.
  apply (proj2 sortRoutesByFee_stable_ascending); reflexivity.
Defined.

(** ** Parsing the ETA string back *)

Lemma decimal_digits (n : N) : string_forall is_digit (decimal n) = true.
Proof.
  unfold decimal. induction (N.to_uint n); simpl; auto.
Qed.

Lemma parseInt_decimal (n : N) : parseInt (decimal n) = Finite (Z.of_N n).
Proof.
  unfold parseInt, decimal. rewrite NilEmpty.usu, Unsigned.of_to. reflexivity.
Qed.

Lemma decimal_nonempty (n : N) : decimal n <> "".
Proof.
  intros H. pose proof (parseInt_decimal n) as Hp. rewrite H in Hp.
  cbv in Hp. injection Hp as Hn. destruct n; [| discriminate].
  discriminate H.
Qed.

(** On a non-empty run of digits followed by a blank and a unit, the two
    groups are the digits and the unit. *)
Lemma match_digits_rest_unit (ds u : string) :
  ds <> "" -> string_forall is_digit ds = true ->
  match_spaces_word (" " ++ u) = Some u ->
  match_digits_rest (ds ++ " " ++ u) = Some (ds, u).
Proof.
  intros Hne Hds Hu. induction ds as [| c ds IH]; [congruence |].
  cbn [string_forall] in Hds. apply andb_prop in Hds as [Hc Hds].
  change (String c ds ++ " " ++ u) with (String c (ds ++ " " ++ u)).
  cbn [match_digits_rest]. rewrite Hc.
  destruct ds as [| c' ds'].
  - change ("" ++ " " ++ u) with (" " ++ u). rewrite Hu.
    change (match_digits_rest (" " ++ u)) with (@None (string * string)).
    reflexivity.
  - rewrite IH by (assumption || discriminate). reflexivity.
Qed.

Lemma parseTimeString_rendered (n : N) (u : string) :
  match_spaces_word (" " ++ u) = Some u ->
  parseTimeString ("~" ++ decimal n ++ " " ++ u)
  = times_multiplier (Finite (Z.of_N n)) u.
Proof.
  intros Hu. unfold parseTimeString.
  change ("~" ++ decimal n ++ " " ++ u) with (String "~" (decimal n ++ " " ++ u)).
  cbn [regex_match match_at].
  rewrite (match_digits_rest_unit (decimal n) u (decimal_nonempty n)
             (decimal_digits n) Hu).
  rewrite parseInt_decimal. reflexivity.
Qed.

(** The value parsed back from a formatted ETA is the largest whole unit,
    in seconds. *)
Lemma parseTimeString_formatETA (ms : Z) :
  0 <= ms ->
  parseTimeString (formatETA ms) =
    Finite (if 86400000 <=? ms then ms / 86400000 * 86400
            else if 3600000 <=? ms then ms / 3600000 * 3600
            else if 60000 <=? ms then ms / 60000 * 60
            else ms / 1000).
Proof.
  intros Hms. rewrite (formatETA_cases ms Hms).
  assert (Hpos : forall d, 0 < d -> Z.of_N (Z.to_N (ms / d)) = ms / d).
  { intros d Hd. apply Z2N.id, Z.div_pos; lia. }
  repeat match goal with
         | |- context [ ?a <=? ?b ] => destruct (Z.leb_spec a b)
         end;
    cbn [append];
    match goal with
    | |- parseTimeString (String "~" (decimal ?n ++ String " " ?u)) = _ =>
        change (String "~" (decimal n ++ String " " u))
          with ("~" ++ decimal n ++ " " ++ u);
        rewrite (parseTimeString_rendered n u eq_refl)
    end;
    cbn [times_multiplier String.eqb Ascii.eqb Bool.eqb]; rewrite Hpos by lia;
    f_equal; lia.
Qed.

(** ** C4: sorting by speed *)

Lemma js_positive_sub_le (x y : jsnumber) :
  x <> NaN -> y <> NaN ->
  (js_positive (js_sub x y) = false <-> jsnumber_le x y).
Proof.
  intros Hx Hy. destruct x, y; simpl; try congruence; try tauto;
    try (split; [intros _; exact I | reflexivity]);
    try (split; [discriminate | contradiction]).
  rewrite Z.ltb_ge. lia.
Qed.


Lemma jsnumber_le_trans (x y z : jsnumber) :
  jsnumber_le x y -> jsnumber_le y z -> jsnumber_le x z.
Proof.
  destruct x, y, z; simpl; try tauto. lia.
Qed.

Lemma jsnumber_le_total (x y : jsnumber) :
  x <> NaN -> y <> NaN -> jsnumber_le x y \/ jsnumber_le y x.
Proof.
  intros Hx Hy. destruct x, y; simpl; try congruence; try tauto. lia.
Qed.





(** ** C9 and C10: the presented fee *)


Lemma map_from_length {A B : Type} (f : A -> nat -> B) (l : list A) (k : nat) :
  length (map_from f k l) = length l.
Proof.
  revert k. induction l as [| x l IH]; intros k; simpl; [| rewrite IH]; reflexivity.
Qed.

Lemma map_from_nth_error {A B : Type} (f : A -> nat -> B) (l : list A) (k i : nat) :
  nth_error (map_from f k l) i
  = option_map (fun x => f x (k + i)%nat) (nth_error l i).
Proof.
  revert k i. induction l as [| x l IH]; intros k [| i]; simpl; try reflexivity.
  - rewrite Nat.add_0_r. reflexivity.
  - rewrite IH. f_equal. 
    replace (S k + i)%nat with (k + S i)%nat by lia. reflexivity.
Qed.



(** C10.  [formatRoutes] returns one option per route, at the route's index
    and built from the quote at that index; a route whose quote is missing, or
    has neither relay fee nor ETA, is still presented, as "Free", 0 and
    "~0 sec". *)
Theorem formatRoutes_one_option_per_route
    (allRoutes : list Route) (quotes : list (option Quote)) :
  length (formatRoutes allRoutes quotes) = length allRoutes /\
  (forall i route,
      nth_error allRoutes i = Some route ->
      nth_error (formatRoutes allRoutes quotes) i = Some (formatRoute quotes route i) /\
      type (formatRoute quotes route i) = constructor_name route /\
      (quote_at quotes i = None \/
       (exists q, quote_at quotes i = Some q /\ relayFee q = None /\ eta q = None) ->
       fee (formatRoute quotes route i) = "Free" /\
       feeAmount (formatRoute quotes route i) = 0%Q /\
       estimatedTime (formatRoute quotes route i) = "~0 sec")).
Proof.
  unfold formatRoutes, array_map. split; [apply map_from_length |].
  intros i route Hi. rewrite map_from_nth_error, Hi. split; [reflexivity |].
  split; [reflexivity |].
  unfold formatRoute. cbn [fee feeAmount estimatedTime].
  intros [-> | (q & -> & Hfee & Heta)]; cbn [relayFee_of eta_or_zero].
  - repeat split.
  - rewrite Hfee, Heta. repeat split.
Qed.

Lemma formatRoutes_one_option_per_route_witness :
  nth_error (formatRoutes [automatic_cctp; manual_cctp]
                          [Some (quote_of (Some half_usdc_fee) (Some 900000))]) 1
  = Some (formatRoute [Some (quote_of (Some half_usdc_fee) (Some 900000))]
                      manual_cctp 1) /\
  estimatedTime (formatRoute [Some (quote_of (Some half_usdc_fee) (Some 900000))]
                             manual_cctp 1) = "~0 sec".
Proof.
  destruct (formatRoutes_one_option_per_route
              [automatic_cctp; manual_cctp]
              [Some (quote_of (Some half_usdc_fee) (Some 900000))]) as [_ H].
  destruct (H 1%nat manual_cctp eq_refl) as (Hnth & _ & Hmissing).
  split; [exact Hnth |].
  apply Hmissing. left. reflexivity.
Defined.

(** ** The wallet adapter and the signer *)

Lemma bind_returned {A B} (c : Async A) (k : A -> Async B) (t t' : Trace) (a : A) :
  c t = (t', Returned a) -> bind c k t = k a t'.
Proof. unfold bind. intros ->. reflexivity. Qed.

Lemma bind_thrown {A B} (c : Async A) (k : A -> Async B) (t t' : Trace) (e : JsError) :
  c t = (t', Thrown e) -> bind c k t = (t', Thrown e).
Proof. unfold bind. intros ->. reflexivity. Qed.

Section SignerFacts.
Variable createPublicClient : Chain -> PublicClient.
Variable walletClient : WalletClient.
Variables (a : Account) (c : Chain).
Hypothesis connected_account : account walletClient = Some a.
Hypothesis connected_chain : chain walletClient = Some c.

Let publicClient := createPublicClient c.
Let request (tx : EthersTransaction) := viem_request a c tx.

Variable ethers : EthersSigner.
Hypothesis adapted :
  walletClientToEthersSigner createPublicClient walletClient = Returned ethers.

Lemma signTransaction_throws (tx : EthersTransaction) (t : Trace) :
  signTransaction ethers tx t =
  (t, Thrown (Error
     "signTransaction not supported - the SDK should use sendTransaction instead")).
Proof.
  unfold walletClientToEthersSigner in adapted.
  rewrite connected_account, connected_chain in adapted.
  injection adapted as <-. reflexivity.
Qed.

(** One [sendTransaction]: hand the request to the wallet, then wait for
    the receipt of the hash it answers. *)
Lemma sendTransaction_run (tx : EthersTransaction) (t : Trace) :
  sendTransaction ethers tx t =
  match wallet_sendTransaction walletClient t (request tx) with
  | Thrown e => ((t ++ [WalletSendTransaction (request tx)])%list, Thrown e)
  | Returned h =>
      let t' := (t ++ [WalletSendTransaction (request tx);
                       WaitForTransactionReceipt h])%list in
      match waitForTransactionReceipt publicClient
              (t ++ [WalletSendTransaction (request tx)])%list h with
      | Thrown e => (t', Thrown e)
      | Returned receipt =>
          (t', Returned {| response_hash := h; wait := ret (receipt, h) |})
      end
  end.
Proof.
  unfold walletClientToEthersSigner in adapted.
  rewrite connected_account, connected_chain in adapted.
  injection adapted as <-. cbn [sendTransaction]. unfold bind, call, ret.
  fold (request tx). fold publicClient.
  destruct (wallet_sendTransaction walletClient t (request tx)) as [h | e];
    [| reflexivity].
  cbv zeta. rewrite <- app_assoc. cbn [app].
  destruct (waitForTransactionReceipt publicClient _ h); reflexivity.
Qed.

Variable signer : ViemWormholeSigner.
Hypothesis signer_ethers : ethersSigner signer = ethers.

Abbreviation Completed := (Completed walletClient publicClient a c).
Abbreviation Failed := (Failed walletClient publicClient a c).

Lemma signAndSend_loop_run (txns : list UnsignedTransaction) :
  forall (txids : list string) (t : Trace),
    match signAndSend_loop signer txns txids t with
    | (t1, Returned out) =>
        exists hashes, out = (txids ++ hashes)%list /\ Completed t txns hashes t1
    | (t1, Thrown e) =>
        exists done txn rest hashes tmid,
          txns = (done ++ txn :: rest)%list /\
          Completed t done hashes tmid /\ Failed tmid txn e t1
    end.
Proof.
  induction txns as [| txn txns IH]; intros txids t.
  - cbn. exists []. rewrite app_nil_r. split; [reflexivity | constructor].
  - cbn [signAndSend_loop]. rewrite signer_ethers. unfold bind at 1.
    rewrite sendTransaction_run.
    destruct (wallet_sendTransaction walletClient t (request (transaction txn)))
      as [h | e] eqn:Hsend.
    + cbv zeta.
      destruct (waitForTransactionReceipt publicClient
                  (t ++ [WalletSendTransaction (request (transaction txn))])%list h)
        as [receipt | e] eqn:Hwait.
      * cbn [response_hash].
        specialize (IH (txids ++ [h])%list
                       (t ++ [WalletSendTransaction (request (transaction txn));
                              WaitForTransactionReceipt h])%list).
        destruct (signAndSend_loop signer txns (txids ++ [h])%list _)
          as [t1 [out | e]].
        -- destruct IH as (hashes & -> & Hrun). exists (h :: hashes). split.
           ++ rewrite <- app_assoc. reflexivity.
           ++ eapply Completed_cons; eassumption.
        -- destruct IH as (done & txn' & rest & hashes & tmid & -> & Hrun & Hfail).
           exists (txn :: done), txn', rest, (h :: hashes), tmid.
           split; [reflexivity |]. split; [| assumption].
           eapply Completed_cons; eassumption.
      * exists [], txn, txns, [], t. split; [reflexivity |].
        split; [constructor |].
        apply (Failed_unmined walletClient publicClient a c t txn h e); assumption.
    + exists [], txn, txns, [], t. split; [reflexivity |].
      split; [constructor |].
      apply (Failed_rejected walletClient publicClient a c t txn e); assumption.
Qed.
End SignerFacts.

Lemma Completed_shape (walletClient : WalletClient) (publicClient : PublicClient)
    (a : Account) (c : Chain) (t t' : Trace) (txns : list UnsignedTransaction)
    (hashes : list string) :
  Completed walletClient publicClient a c t txns hashes t' ->
  length hashes = length txns /\ t' = (t ++ submissions a c txns hashes)%list.
Proof.
  intros H. induction H as [t | t t' txn h receipt txns hashes request Hs Hw Hrun [IHl IHt]].
  - split; [reflexivity |]. cbn. rewrite app_nil_r. reflexivity.
  - split; [cbn; congruence |].
    rewrite IHt. cbn [submissions]. rewrite <- !app_assoc. reflexivity.
Qed.

Lemma sent_requests_app (t1 t2 : Trace) :
  sent_requests (t1 ++ t2)%list = (sent_requests t1 ++ sent_requests t2)%list.
Proof.
  induction t1 as [| ev t1 IH]; [reflexivity |].
  destruct ev; cbn; rewrite ?IH; reflexivity.
Qed.

Lemma sent_requests_submissions (a : Account) (c : Chain)
    (txns : list UnsignedTransaction) :
  forall hashes,
    length hashes = length txns ->
    sent_requests (submissions a c txns hashes)
    = map (fun txn => viem_request a c (transaction txn)) txns.
Proof.
  induction txns as [| txn txns IH]; intros [| h hashes] Hlen; try discriminate.
  - reflexivity.
  - cbn. f_equal. apply IH. cbn in Hlen. congruence.
Qed.

Lemma createWormholeSigner_returned (createPublicClient : Chain -> PublicClient)
    (walletClient : WalletClient) (wh : Wh) (name : string)
    (signer : ViemWormholeSigner) :
  createWormholeSigner createPublicClient walletClient wh name = Returned signer ->
  exists a c,
    account walletClient = Some a /\ chain walletClient = Some c /\
    walletClientToEthersSigner createPublicClient walletClient
    = Returned (ethersSigner signer) /\
    signer_chain signer = name /\ signer_address signer = account_address a.
Proof.
  unfold createWormholeSigner.
  destruct (account walletClient) as [a |] eqn:Ha; [| discriminate].
  destruct (chain walletClient) as [c |] eqn:Hc; [| discriminate].
  destruct (walletClientToEthersSigner createPublicClient walletClient)
    as [ethers | e] eqn:He; [| discriminate].
  intros H. injection H as <-. exists a, c. repeat split; assumption.
Qed.

(** ** C2: [signAndSend] *)

(** C2.  [signAndSend] hands the transactions to the wallet one at a time, in
    input order, each only after the previous one was sent and its receipt
    awaited.  When it returns, every transaction was sent and mined and the
    result holds the wallet's hash for each, in order.  When it throws, some
    transaction failed (declined by the wallet, or lost while awaiting its
    receipt): the ones before it completed, none after it was handed to the
    wallet, and the error thrown is the one the wallet or the chain gave.  In
    particular, declining the first of two leaves one request and no completed
    transaction. *)
Theorem signAndSend_sequential (createPublicClient : Chain -> PublicClient)
    (walletClient : WalletClient) (wh : Wh) (name : string)
    (signer : ViemWormholeSigner) (a : Account) (c : Chain) :
  account walletClient = Some a ->
  chain walletClient = Some c ->
  createWormholeSigner createPublicClient walletClient wh name = Returned signer ->
  forall (txns : list UnsignedTransaction) (t0 : Trace),
    let request txn := viem_request a c (transaction txn) in
    match signAndSend signer txns t0 with
    | (t1, Returned txids) =>
        Completed walletClient (createPublicClient c) a c t0 txns txids t1 /\
        length txids = length txns /\
        t1 = (t0 ++ submissions a c txns txids)%list /\
        sent_requests (submissions a c txns txids) = map request txns
    | (t1, Thrown e) =>
        exists done txn rest hashes tmid,
          txns = (done ++ txn :: rest)%list /\
          Completed walletClient (createPublicClient c) a c t0 done hashes tmid /\
          Failed walletClient (createPublicClient c) a c tmid txn e t1 /\
          length hashes = length done /\
          exists new, t1 = (t0 ++ new)%list /\
                      sent_requests new = map request (done ++ [txn])%list
    end /\
    (forall first second e,
        wallet_sendTransaction walletClient t0 (request first) = Thrown e ->
        signAndSend signer [first; second] t0
        = ((t0 ++ [WalletSendTransaction (request first)])%list, Thrown e)).
Proof.
  intros Ha Hc Hsigner txns t0 request.
  destruct (createWormholeSigner_returned _ _ _ _ _ Hsigner)
    as (a' & c' & Ha' & Hc' & Hethers & _ & _).
  assert (a' = a) by congruence. assert (c' = c) by congruence. subst a' c'.
  split.
  - pose proof (signAndSend_loop_run createPublicClient walletClient a c Ha Hc
                  (ethersSigner signer) Hethers signer eq_refl txns [] t0) as Hrun.
    unfold signAndSend.
    destruct (signAndSend_loop signer txns [] t0) as [t1 [txids | e]].
    + destruct Hrun as (hashes & -> & Hrun). cbn [app].
      destruct (Completed_shape _ _ _ _ _ _ _ _ Hrun) as [Hlen Ht].
      repeat split; try assumption.
      apply sent_requests_submissions; assumption.
    + destruct Hrun as (done & txn & rest & hashes & tmid & Htxns & Hrun & Hfail).
      exists done, txn, rest, hashes, tmid.
      destruct (Completed_shape _ _ _ _ _ _ _ _ Hrun) as [Hlen Ht].
      repeat split; try assumption.
      inversion Hfail as [t txn' e' request' Hs | t txn' h e' request' Hs Hw]; subst.
      * exists (submissions a c done hashes
                ++ [WalletSendTransaction (viem_request a c (transaction txn))])%list.
        split; [rewrite app_assoc; reflexivity |].
        rewrite sent_requests_app, map_app, sent_requests_submissions by assumption.
        reflexivity.
      * exists (submissions a c done hashes ++ submission a c txn h)%list.
        split; [rewrite app_assoc; reflexivity |].
        rewrite sent_requests_app, map_app, sent_requests_submissions by assumption.
        reflexivity.
  - intros first second e Hreject. unfold signAndSend. cbn [signAndSend_loop].
    unfold bind at 1.
    rewrite (sendTransaction_run createPublicClient walletClient a c Ha Hc
               (ethersSigner signer) Hethers).
    fold (request first). rewrite Hreject. reflexivity.
Qed.

Lemma signAndSend_sequential_witness :
  exists signer,
    createWormholeSigner quiet_chain declining_wallet (wh_handle "Mainnet") "Ethereum"
    = Returned signer /\
    signAndSend signer [approval; transfer] []
    = ([WalletSendTransaction (viem_request alice ethereum (transaction approval))],
       Thrown user_rejected).
Proof.
  eexists. split; [reflexivity |].
  apply (proj2 (signAndSend_sequential quiet_chain declining_wallet
                  (wh_handle "Mainnet") "Ethereum" _ alice ethereum
                  eq_refl eq_refl eq_refl [approval; transfer] [])).
  reflexivity.
Defined.

(** ** C5: no detached signature *)

Section EmitsOnly.
Variable allowed : Event -> Prop.

Lemma emits_only_ret {A} (x : A) : emits_only allowed (ret x).
Proof. intros t. exists []. rewrite app_nil_r. split; [reflexivity | constructor]. Qed.

Lemma emits_only_throw {A} (e : JsError) : emits_only allowed (@throw A e).
Proof. intros t. exists []. rewrite app_nil_r. split; [reflexivity | constructor]. Qed.

Lemma emits_only_call {A} (ev : Event) (callee : Trace -> Outcome A) :
  allowed ev -> emits_only allowed (call ev callee).
Proof. intros H t. exists [ev]. split; [reflexivity | repeat constructor; exact H]. Qed.

Lemma emits_only_bind {A B} (c : Async A) (k : A -> Async B) :
  emits_only allowed c -> (forall x, emits_only allowed (k x)) ->
  emits_only allowed (bind c k).
Proof.
  intros Hc Hk t. unfold bind. destruct (Hc t) as (new1 & H1 & Hall1).
  destruct (c t) as [t' [x | e]]; cbn [fst] in H1; subst t'.
  - destruct (Hk x (t ++ new1)%list) as (new2 & H2 & Hall2).
    exists (new1 ++ new2)%list. rewrite H2, app_assoc.
    split; [reflexivity | apply Forall_app; split; assumption].
  - exists new1. split; [reflexivity | assumption].
Qed.
End EmitsOnly.

Create HintDb emits.
#[local] Hint Resolve emits_only_ret emits_only_throw emits_only_call emits_only_bind
  : emits.

(** C5.  On a signer made by [createWormholeSigner], [signTransaction] throws
    for every transaction, without calling the wallet; and no operation of the
    adapter or of the signer -- whichever way it ends -- ever asks the wallet
    for a detached signature. *)
Theorem signTransaction_never_signs (createPublicClient : Chain -> PublicClient)
    (walletClient : WalletClient) (wh : Wh) (name : string)
    (signer : ViemWormholeSigner) :
  createWormholeSigner createPublicClient walletClient wh name = Returned signer ->
  (forall tx t,
      signTransaction (ethersSigner signer) tx t =
      (t, Thrown (Error
         "signTransaction not supported - the SDK should use sendTransaction instead")))
  /\
  (forall op t,
      exists new,
        adapter_trace signer op t = (t ++ new)%list /\
        Forall (fun ev => requests_signature ev = false) new).
Proof.
  intros Hsigner.
  destruct (createWormholeSigner_returned _ _ _ _ _ Hsigner)
    as (a & c & Ha & Hc & Hethers & _ & _).
  split.
  - intros tx t. eapply signTransaction_throws; eassumption.
  - set (ok := fun ev => requests_signature ev = false).
    assert (Hmethods :
      emits_only ok (getNetwork (provider (ethersSigner signer))) /\
      emits_only ok (getFeeData (provider (ethersSigner signer))) /\
      emits_only ok (provider_getBlock (provider (ethersSigner signer))) /\
      emits_only ok (provider_getBlockNumber (provider (ethersSigner signer))) /\
      emits_only ok (getAddress (ethersSigner signer)) /\
      emits_only ok (getNonce (ethersSigner signer)) /\
      (forall tx, emits_only ok (sendTransaction (ethersSigner signer) tx)) /\
      (forall tx, emits_only ok (signTransaction (ethersSigner signer) tx))).
    { unfold walletClientToEthersSigner in Hethers. rewrite Ha, Hc in Hethers.
      injection Hethers as <-. cbn.
      repeat split; intros;
        repeat (apply emits_only_bind; [| intros]);
        auto with emits; apply emits_only_call; reflexivity. }
    destruct Hmethods as (H1 & H2 & H3 & H4 & H5 & H6 & H7 & H9).
    assert (H8 : forall tx,
               emits_only ok (response <- sendTransaction (ethersSigner signer) tx ;;
                              wait response)).
    { intros tx t. unfold bind.
      rewrite (sendTransaction_run createPublicClient walletClient a c Ha Hc
                 (ethersSigner signer) Hethers).
      destruct (wallet_sendTransaction walletClient t (viem_request a c tx)) as [h | e].
      - cbv zeta. destruct (waitForTransactionReceipt _ _ h); cbn;
          eexists; (split; [reflexivity | repeat constructor]).
      - eexists. split; [reflexivity | repeat constructor]. }
    assert (Hloop : forall txns txids, emits_only ok (signAndSend_loop signer txns txids)).
    { induction txns as [| txn txns IH]; intros txids; cbn [signAndSend_loop].
      - apply emits_only_ret.
      - apply emits_only_bind; [apply H7 | intros; apply IH]. }
    intros op t. destruct op; cbn [adapter_trace];
      [apply H1 | apply H2 | apply H3 | apply H4 | apply H5 | apply H6
       | apply H7 | apply H8 | apply H9 | apply Hloop].
Qed.

Lemma signTransaction_never_signs_witness :
  exists signer,
    createWormholeSigner quiet_chain obliging_wallet (wh_handle "Mainnet") "Ethereum"
    = Returned signer /\
    signTransaction (ethersSigner signer) (transaction transfer) [] =
    ([], Thrown (Error
       "signTransaction not supported - the SDK should use sendTransaction instead")).
Proof.
  eexists. split; [reflexivity |].
  apply (proj1 (signTransaction_never_signs quiet_chain obliging_wallet
                  (wh_handle "Mainnet") "Ethereum" _ eq_refl)).
Defined.

(** ** C6: the transfer executor *)

(** C6 (as amended).  [initiateTransfer] calls [route.validate], then
    [route.quote], then [route.initiate], and nothing else, so [initiate] is
    never reached without both.  When validation answers "invalid" it throws a
    plain [Error] whose message is the validation reason (or "Transfer
    validation failed" when none is given) after the single call to
    [validate]; when the quote is unsuccessful it throws a plain [Error] whose
    message is the quote's error (or "Failed to get quote") after [validate]
    and [quote] only.  In both cases [route.initiate] is not invoked. *)
Theorem initiateTransfer_validates_and_quotes_first (args : InitiateParams) (t0 : Trace) :
  let route := ip_route args in
  let request := ip_transferRequest args in
  let signer := ip_signer args in
  let tp := {| tp_amount := ip_amount args; tp_nativeGas := 0 |} in
  let V := RouteValidate (constructor_name route) request tp in
  let Q v := RouteQuote (constructor_name route) request (params v) in
  let I q to_ := RouteInitiate (constructor_name route) request
                   (signer_chain signer) (signer_address signer) q to_ in
  (exists new,
      fst (initiateTransfer args t0) = (t0 ++ new)%list /\
      (new = [V] \/ (exists v, new = [V; Q v]) \/
       (exists v q to_, new = [V; Q v; I q to_]))) /\
  (forall v,
      validate route t0 request tp = Returned v -> valid v = false ->
      initiateTransfer args t0 =
      ((t0 ++ [V])%list,
       Thrown (Error (or_default (validation_error v) "Transfer validation failed")))) /\
  (forall v q,
      validate route t0 request tp = Returned v -> valid v = true ->
      quote route (t0 ++ [V])%list request (params v) = Returned q ->
      success q = false ->
      initiateTransfer args t0 =
      ((t0 ++ [V; Q v])%list,
       Thrown (Error (or_default (quote_error q) "Failed to get quote")))).
Proof.
  cbv zeta. unfold initiateTransfer, bind, call, throw, ret.
  split; [| split].
  - destruct (validate _ t0 _ _) as [v | e]; [| eexists; split; [reflexivity | auto]].
    destruct (valid v); cbn [negb]; [| eexists; split; [reflexivity | auto]].
    destruct (quote _ _ _ _) as [q | e].
    + destruct (success q); cbn [negb].
      * destruct (destinationToken q) as [dt |].
        -- destruct (initiate _ _ _ _ _ _ _);
             rewrite <- !app_assoc; cbn [app];
             (eexists; split; [reflexivity | right; right; eauto]).
        -- rewrite <- !app_assoc; cbn [app].
           eexists; split; [reflexivity | right; left; eauto].
      * rewrite <- !app_assoc; cbn [app].
        eexists; split; [reflexivity | right; left; eauto].
    + rewrite <- !app_assoc; cbn [app].
      eexists; split; [reflexivity | right; left; eauto].
  - intros v -> ->. reflexivity.
  - intros v q -> -> Hq Hs. cbn [negb]. rewrite Hq, Hs. cbn [negb].
    rewrite <- !app_assoc. reflexivity.
Qed.

Lemma initiateTransfer_validates_and_quotes_first_witness :
  exists signer,
    createWormholeSigner quiet_chain obliging_wallet (wh_handle "Mainnet") "Ethereum"
    = Returned signer /\
    initiateTransfer (transfer_args too_small_route signer) [] =
    ([RouteValidate "CCTPRoute" usdc_request {| tp_amount := "10"; tp_nativeGas := 0 |}],
     Thrown (Error "Amount too small")) /\
    initiateTransfer (transfer_args unquotable_route signer) [] =
    ([RouteValidate "CCTPRoute" usdc_request {| tp_amount := "10"; tp_nativeGas := 0 |};
      RouteQuote "CCTPRoute" usdc_request (validated_params 1)],
     Thrown (Error "Relayer unavailable")).
Proof.
  eexists. split; [reflexivity |]. split.
  - apply (proj1 (proj2 (initiateTransfer_validates_and_quotes_first
                           (transfer_args too_small_route _) []))
             _ eq_refl eq_refl).
  - apply (proj2 (proj2 (initiateTransfer_validates_and_quotes_first
                           (transfer_args unquotable_route _) []))
             accepted _ eq_refl eq_refl eq_refl eq_refl).
Defined.

(** C6 (as stated) fails: the error thrown on an invalid validation is not a
    [TransferFailedError], and the one thrown on an unsuccessful quote is not
    a [QuoteFailedError]; both are plain [Error]s. *)
Lemma initiateTransfer_throws_plain_Error :
  exists signer,
    createWormholeSigner quiet_chain obliging_wallet (wh_handle "Mainnet") "Ethereum"
    = Returned signer /\
    (exists e, snd (initiateTransfer (transfer_args too_small_route signer) [])
               = Thrown e /\
               err_name e = "Error" /\ err_code e = None /\
               instanceof "TransferFailedError" e = false /\
               e <> TransferFailedError "Amount too small") /\
    (exists e, snd (initiateTransfer (transfer_args unquotable_route signer) [])
               = Thrown e /\
               err_name e = "Error" /\ err_code e = None /\
               instanceof "QuoteFailedError" e = false /\
               e <> QuoteFailedError "Relayer unavailable").
Proof.
  eexists. split; [reflexivity |].
  split; eexists; (split; [reflexivity |]); repeat split; discriminate.
Qed.

(** ** C8: no destination token *)

Lemma emits_only_lift (allowed : Event -> Prop) {A} (o : Outcome A) :
  emits_only allowed (lift o).
Proof. intros t. exists []. rewrite app_nil_r. split; [reflexivity | constructor]. Qed.

#[local] Hint Resolve emits_only_lift : emits.

(** C8 (as amended).  When the protocol answers the destination-token query
    with nothing (an empty list, or no list), [getTransferQuote] throws a plain
    [Error] with the message "No supported destination tokens found" right
    after that query: transfer-request creation and route enumeration are not
    attempted.  And [getTransferQuote] never calls a route's [validate],
    [quote] or [initiate], whatever the protocol answers. *)
Theorem getTransferQuote_no_destination_tokens (sdk : Sdk) (request : QuoteParams)
    (t0 : Trace) (wh : Wh) (resolver : Resolver) (srcChain dstChain : ChainContext)
    (tokenId : TokenId) (destTokens : option (list TokenId)) :
  wormhole sdk t0 "Mainnet" = Returned wh ->
  wh_resolver sdk wh resolver_routes = Returned resolver ->
  wh_getChain sdk wh (qp_sourceChain request) = Returned srcChain ->
  wh_getChain sdk wh (qp_destChain request) = Returned dstChain ->
  Wormhole_tokenId sdk (cc_chain srcChain)
    (if String.eqb (qp_tokenAddress request) NATIVE_TOKEN_ADDRESS
     then "native" else qp_tokenAddress request) = Returned tokenId ->
  supportedDestinationTokens sdk (t0 ++ [InitWormhole "Mainnet"])%list
    resolver tokenId srcChain dstChain = Returned destTokens ->
  destTokens = None \/ destTokens = Some [] ->
  getTransferQuote sdk request t0 =
  ((t0 ++ [InitWormhole "Mainnet";
           SupportedDestinationTokens tokenId (cc_chain srcChain) (cc_chain dstChain)])%list,
   Thrown (Error "No supported destination tokens found")) /\
  emits_only (fun ev => is_route_method ev = false) (getTransferQuote sdk request).
Proof.
  intros Hinit Hres Hsrc Hdst Htok Hdest Hnone. split.
  - unfold getTransferQuote, initWormhole, bind, call, lift, throw.
    rewrite Hinit, Hres, Hsrc, Hdst, Htok, Hdest. rewrite <- app_assoc.
    destruct Hnone as [-> | ->]; reflexivity.
  - unfold getTransferQuote, initWormhole.
    repeat first
      [ apply emits_only_bind; [| intros]
      | apply emits_only_call; reflexivity
      | solve [auto with emits]
      | match goal with
        | |- emits_only _ (match ?found with _ => _ end) =>
            destruct found as [[| ? ?] |]
        end ].
Qed.

Lemma getTransferQuote_no_destination_tokens_witness :
  getTransferQuote no_destination_sdk usdc_to_base [] =
  ([InitWormhole "Mainnet";
    SupportedDestinationTokens
      {| tid_chain := "Ethereum";
         tid_address := "0xA0b86991c6218b36c1d19D4a2e9Eb0cE3606eB48" |}
      "Ethereum" "Base"],
   Thrown (Error "No supported destination tokens found")).
Proof.
  apply (proj1 (getTransferQuote_no_destination_tokens
                  no_destination_sdk usdc_to_base []
                  (wh_handle "Mainnet") (resolver_handle resolver_routes)
                  {| cc_chain := "Ethereum" |} {| cc_chain := "Base" |}
                  {| tid_chain := "Ethereum";
                     tid_address := "0xA0b86991c6218b36c1d19D4a2e9Eb0cE3606eB48" |}
                  (Some [])
                  eq_refl eq_refl eq_refl eq_refl eq_refl eq_refl
                  (or_intror eq_refl))).
Defined.

(** C8 (as stated) fails: with no destination token the error thrown is a
    plain [Error]; it is no [NoDestinationTokenError], nor any other error
    class of the SDK core. *)
Lemma getTransferQuote_throws_plain_Error :
  exists e,
    snd (getTransferQuote no_destination_sdk usdc_to_base []) = Thrown e /\
    err_name e = "Error" /\
    instanceof "NoDestinationTokenError" e = false /\
    isWormholeError e = false.
Proof.
  eexists. split; [reflexivity |]. repeat split.
Qed.

(** ** C1: the transaction hash taken from the receipt *)

(** C1 (the code at the failing input).  For the receipt of an approval
    followed by the transfer, which [initiateTransfer] returns unchanged, the
    hash extracted by [initiateTransfer] and shown by the first bridge
    component is the approval's, the first entry; the last entry, which the
    route-selecting component shows, is the transfer's. *)
Theorem initiateTransfer_txHash_is_first_entry :
  (exists signer,
      createWormholeSigner quiet_chain obliging_wallet (wh_handle "Mainnet") "Ethereum"
      = Returned signer /\
      snd (initiateTransfer (transfer_args two_step_route signer) [])
      = Returned (Some two_step_receipt)) /\
  initiateTransfer_txHash (Some two_step_receipt) = Some "0xaaa1" /\
  Bridge_txHash (Some two_step_receipt) = "0xaaa1" /\
  Selector_txHash (Some two_step_receipt) = Some "0xbbb2" /\
  option_map tx_txid (last (map Some (originTxs_or_empty (Some two_step_receipt))) None)
  = Some "0xbbb2".
Proof.
  split; [eexists; split; reflexivity |]. repeat split.
Qed.

(* ===================================================================== *)
(** * Further properties of the route presenter                           *)
(* ===================================================================== *)





(** A list that already ascends is left as it is. *)
Lemma array_sort_fixes_sorted {A : Type} (gt : A -> A -> bool) (l : list A) :
  StronglySorted (fun x y => gt x y = false) l -> array_sort gt l = l.
Proof.
  intros Hs. induction Hs as [| a l Hs IH Ha]; [reflexivity |].
  cbn [array_sort]. rewrite IH.
  destruct l as [| y l']; [reflexivity |].
  cbn [sort_insert]. inversion Ha as [| ? ? Hay _]; subst. rewrite Hay. reflexivity.
Qed.

Lemma sortRoutesByFee_gt_sorted (routes : list RouteOption) :
  StronglySorted (fun x y => fee_gt x y = false) (sortRoutesByFee routes).
Proof.
  unfold sortRoutesByFee. apply array_sort_sorted with (dom := fun _ => True).
  - intros x y _ _ H. apply fee_gt_true in H. apply fee_gt_false. lra.
  - intros x y z _ _ _ H1 H2. apply fee_gt_false in H1, H2. apply fee_gt_false. lra.
  - apply Forall_forall. intros; exact I.
Qed.

Lemma sortRoutesBySpeed_gt_sorted (routes : list RouteOption) :
  Forall (fun o => parsed_time o <> NaN) routes ->
  StronglySorted (fun x y => speed_gt x y = false) (sortRoutesBySpeed routes).
Proof.
  intros Hdom. unfold sortRoutesBySpeed.
  assert (Hle : forall x y, parsed_time x <> NaN -> parsed_time y <> NaN ->
                  (speed_gt x y = false <->
                   jsnumber_le (parsed_time x) (parsed_time y))).
  { intros x y Hx Hy. apply js_positive_sub_le; assumption. }
  apply array_sort_sorted with (dom := fun o => parsed_time o <> NaN).
  - intros x y Hx Hy Hgt. apply Hle; auto.
    destruct (jsnumber_le_total (parsed_time x) (parsed_time y) Hx Hy) as [H | H];
      [| exact H].
    apply Hle in H; auto. congruence.
  - intros x y z Hx Hy Hz H1 H2. apply Hle in H1, H2; auto.
    apply Hle; auto. eapply jsnumber_le_trans; eassumption.
  - exact Hdom.
Qed.

(** X3.  Both sorts keep the number of options, leave an ascending list
    untouched and are idempotent (for the speed sort: when no time string
    parses to NaN). *)
Theorem sorts_are_idempotent (routes : list RouteOption) :
  length (sortRoutesByFee routes) = length routes /\
  length (sortRoutesBySpeed routes) = length routes /\
  sortRoutesByFee (sortRoutesByFee routes) = sortRoutesByFee routes /\
  (StronglySorted (fun a b => (feeAmount a <= feeAmount b)%Q) routes ->
   sortRoutesByFee routes = routes) /\
  (Forall (fun o => parsed_time o <> NaN) routes ->
   sortRoutesBySpeed (sortRoutesBySpeed routes) = sortRoutesBySpeed routes).
Proof.
  split; [apply Permutation_length, array_sort_perm |].
  split; [apply Permutation_length, array_sort_perm |].
  split; [| split].
  - apply array_sort_fixes_sorted, sortRoutesByFee_gt_sorted.
  - intros Hs. apply array_sort_fixes_sorted.
    apply StronglySorted_weaken
      with (dom := fun _ => True) (R := fun a b => (feeAmount a <= feeAmount b)%Q);
      [| apply Forall_forall; intros; exact I | exact Hs].
    intros x y _ _. apply fee_gt_false.
  - intros Hdom. apply array_sort_fixes_sorted, sortRoutesBySpeed_gt_sorted, Hdom.
Qed.

Lemma sorts_are_idempotent_witness :
  sortRoutesByFee [fee_option 0 "a" "~2 days"; fee_option 2 "c" "~3 hours"]
  = [fee_option 0 "a" "~2 days"; fee_option 2 "c" "~3 hours"] /\
  sortRoutesBySpeed
    (sortRoutesBySpeed [fee_option 0 "a" "~2 days"; fee_option 2 "c" "~3 hours"])
  = sortRoutesBySpeed [fee_option 0 "a" "~2 days"; fee_option 2 "c" "~3 hours"].
Proof.
  pose proof (sorts_are_idempotent
                [fee_option 0 "a" "~2 days"; fee_option 2 "c" "~3 hours"])
    as (_ & _ & _ & Hfee & Hspeed).
  split.
  - apply Hfee. repeat constructor. unfold Qle. simpl. lia.
  - apply Hspeed. repeat constructor; discriminate.
Defined.

(** X4.  After sorting by fee the first option is a cheapest one, and among
    the options with that fee it is the one that came first in the input. *)
Theorem sortRoutesByFee_head_is_cheapest
    (routes : list RouteOption) (first : RouteOption) (rest : list RouteOption) :
  sortRoutesByFee routes = first :: rest ->
  In first routes /\
  (forall o, In o routes -> (feeAmount first <= feeAmount o)%Q) /\
  exists others,
    filter (fun o => Qeq_bool (feeAmount o) (feeAmount first)) routes = first :: others.
Proof.
  intros Hsort.
  assert (Hperm : Permutation (first :: rest) routes).
  { rewrite <- Hsort. apply array_sort_perm. }
  pose proof (sortRoutesByFee_gt_sorted routes) as Hs. rewrite Hsort in Hs.
  inversion Hs as [| ? ? _ Hfirst]; subst.
  split; [eapply Permutation_in; [exact Hperm | left; reflexivity] |].
  split.
  - intros o Ho. apply Permutation_sym in Hperm.
    destruct (Permutation_in _ Hperm Ho) as [<- | Hin]; [lra |].
    rewrite Forall_forall in Hfirst. apply fee_gt_false, Hfirst, Hin.
  - exists (filter (fun o => Qeq_bool (feeAmount o) (feeAmount first)) rest).
    rewrite <- (filter_array_sort fee_gt
                  (fun o => Qeq_bool (feeAmount o) (feeAmount first))).
    + fold (sortRoutesByFee routes). rewrite Hsort. cbn [filter].
      rewrite (proj2 (Qeq_bool_iff _ _) (Qeq_refl _)). reflexivity.
    + intros x y Hx Hy. apply Qeq_bool_iff in Hx, Hy. apply fee_gt_false. lra.
Qed.

Lemma sortRoutesByFee_head_is_cheapest_witness :
  In (fee_option 0 "a" "~2 days")
     [fee_option 5 "b" "~1 min"; fee_option 0 "a" "~2 days"; fee_option 0 "c" "~1 min"].
Proof.
  apply (sortRoutesByFee_head_is_cheapest
           [fee_option 5 "b" "~1 min"; fee_option 0 "a" "~2 days";
            fee_option 0 "c" "~1 min"]
           (fee_option 0 "a" "~2 days")
           [fee_option 0 "c" "~1 min"; fee_option 5 "b" "~1 min"]).
  reflexivity.
Defined.

Lemma map_from_ext {A B : Type} (f g : A -> nat -> B) (l : list A) (k : nat) :
  (forall x i, (i < length l)%nat -> f x (k + i)%nat = g x (k + i)%nat) ->
  map_from f k l = map_from g k l.
Proof.
  revert k. induction l as [| x l IH]; intros k H; [reflexivity |].
  cbn [map_from]. f_equal.
  - specialize (H x 0%nat). rewrite Nat.add_0_r in H. apply H. cbn. lia.
  - apply IH. intros y i Hi. replace (S k + i)%nat with (k + S i)%nat by lia.
    apply H. cbn. lia.
Qed.

Lemma map_from_app {A B : Type} (f : A -> nat -> B) (l1 l2 : list A) (k : nat) :
  map_from f k (l1 ++ l2)%list
  = (map_from f k l1 ++ map_from f (k + length l1) l2)%list.
Proof.
  revert k. induction l1 as [| x l1 IH]; intros k; cbn [map_from app length].
  - rewrite Nat.add_0_r. reflexivity.
  - rewrite IH. replace (S k + length l1)%nat with (k + S (length l1))%nat by lia.
    reflexivity.
Qed.

Lemma map_from_shift {A B : Type} (f g : A -> nat -> B) (l : list A) (k j : nat) :
  (forall x i, f x (i + j)%nat = g x i) ->
  map_from f (k + j) l = map_from g k l.
Proof.
  intros H. revert k. induction l as [| x l IH]; intros k; [reflexivity |].
  cbn [map_from]. f_equal; [apply H |]. apply (IH (S k)).
Qed.

Lemma formatRoute_same_quote (quotes quotes' : list (option Quote)) (route : Route)
    (i j : nat) :
  quote_at quotes i = quote_at quotes' j ->
  formatRoute quotes route i = formatRoute quotes' route j.
Proof.
  intros H. unfold formatRoute. rewrite H. reflexivity.
Qed.

(** X5.  [formatRoutes] reads the quote list only at the routes' indices:
    quotes beyond the last route are ignored, a missing trailing quote is the
    same as an explicit [undefined], an empty route list gives an empty
    result, and the options of a concatenated route list are those of the
    first part followed by those of the second part formatted against the
    remaining quotes. *)
Theorem formatRoutes_reads_aligned_quotes
    (allRoutes moreRoutes : list Route) (quotes : list (option Quote)) (n : nat) :
  formatRoutes [] quotes = [] /\
  formatRoutes allRoutes (firstn (length allRoutes) quotes)
  = formatRoutes allRoutes quotes /\
  formatRoutes allRoutes (quotes ++ repeat None n)%list
  = formatRoutes allRoutes quotes /\
  formatRoutes (allRoutes ++ moreRoutes)%list quotes
  = (formatRoutes allRoutes quotes
     ++ formatRoutes moreRoutes (skipn (length allRoutes) quotes))%list.
Proof.
  unfold formatRoutes, array_map. split; [reflexivity |]. split; [| split].
  - apply map_from_ext. intros route i Hi. cbn [Nat.add].
    apply formatRoute_same_quote. unfold quote_at.
    rewrite nth_error_firstn.
    destruct (Nat.ltb_spec i (length allRoutes)); [reflexivity | lia].
  - apply map_from_ext. intros route i _. cbn [Nat.add].
    apply formatRoute_same_quote. unfold quote_at.
    destruct (Nat.lt_ge_cases i (length quotes)) as [Hlt | Hge].
    + rewrite nth_error_app1 by assumption. reflexivity.
    + rewrite nth_error_app2 by assumption.
      rewrite (proj2 (nth_error_None quotes i) Hge).
      destruct (nth_error (repeat None n) (i - length quotes)) as [q |] eqn:Hq;
        [| reflexivity].
      apply nth_error_In, repeat_spec in Hq. subst q. reflexivity.
  - rewrite map_from_app. f_equal. cbn [Nat.add].
    apply (map_from_shift _ _ moreRoutes 0 (length allRoutes)).
    intros route i. apply formatRoute_same_quote. unfold quote_at.
    replace (i + length allRoutes)%nat with (length allRoutes + i)%nat by lia.
    rewrite nth_error_skipn. reflexivity.
Qed.






Lemma match_at_without_tilde (s : string) :
  string_forall (fun c => negb (Ascii.eqb c "~")) s = true -> regex_match s = None.
Proof.
  induction s as [| c s IH]; [reflexivity |].
  cbn [string_forall]. intros H. apply andb_prop in H as [Hc Hs].
  cbn [regex_match]. rewrite (IH Hs).
  unfold match_at. destruct (Ascii.eqb_spec c "~") as [-> | Hne]; [discriminate Hc |].
  destruct c as [[] [] [] [] [] [] [] []]; try reflexivity. congruence.
Qed.

(** X7.  A time string without a tilde (the empty string, free text) parses
    to Infinity, and an option carrying such a string is sorted after any
    option whose string was made by [formatETA], whichever came first. *)
Theorem parseTimeString_without_tilde_is_last :
  (forall s, string_forall (fun c => negb (Ascii.eqb c "~")) s = true ->
             parseTimeString s = PosInfinity) /\
  (forall a b ms,
      string_forall (fun c => negb (Ascii.eqb c "~")) (estimatedTime a) = true ->
      0 <= ms -> estimatedTime b = formatETA ms ->
      sortRoutesBySpeed [a; b] = [b; a] /\ sortRoutesBySpeed [b; a] = [b; a]).
Proof.
  assert (Hinf : forall s, string_forall (fun c => negb (Ascii.eqb c "~")) s = true ->
                           parseTimeString s = PosInfinity).
  { intros s Hs. unfold parseTimeString. rewrite (match_at_without_tilde s Hs).
    reflexivity. }
  split; [exact Hinf |].
  intros a b ms Ha Hms Hb. unfold sortRoutesBySpeed, speed_gt.
  cbn [array_sort sort_insert].
  rewrite (Hinf _ Ha), Hb, (parseTimeString_formatETA ms Hms). split; reflexivity.
Qed.

Lemma parseTimeString_without_tilde_is_last_witness :
  sortRoutesBySpeed [fee_option 0 "a" "soon"; fee_option 5 "b" (formatETA 900000)]
  = [fee_option 5 "b" (formatETA 900000); fee_option 0 "a" "soon"].
Proof.
  apply (proj2 parseTimeString_without_tilde_is_last
           (fee_option 0 "a" "soon") (fee_option 5 "b" (formatETA 900000)) 900000);
    [reflexivity | lia | reflexivity].
Defined.

(* ===================================================================== *)
(** * Properties of the error utilities                                   *)
(* ===================================================================== *)

(** X8.  [toWormholeError] always yields a [WormholeError] that carries the
    message of what was caught; it returns a [WormholeError] as it is, gives
    everything else the code UNKNOWN_ERROR, and applying it twice changes
    nothing more. *)
Theorem toWormholeError_normalises (error : Caught) :
  isWormholeError (toWormholeError error) = true /\
  err_message (toWormholeError error) = getErrorMessage error /\
  toWormholeError (CaughtError (toWormholeError error)) = toWormholeError error /\
  (caught_isWormholeError error = false ->
   toWormholeError error = WormholeError (getErrorMessage error) UNKNOWN_ERROR) /\
  (forall e, error = CaughtError e -> isWormholeError e = true ->
             toWormholeError error = e).
Proof.
  destruct error as [e | s |]; cbn [toWormholeError caught_isWormholeError getErrorMessage].
  - destruct (isWormholeError e) eqn:He.
    + repeat split; try assumption; try discriminate.
      * cbn [toWormholeError]. rewrite He. reflexivity.
      * intros e' H _. injection H as <-. reflexivity.
    + repeat split; try reflexivity. intros e' H He'. injection H as <-. congruence.
  - repeat split; try reflexivity. discriminate.
  - repeat split; try reflexivity. discriminate.
Qed.

Lemma toWormholeError_normalises_witness :
  toWormholeError (CaughtError user_rejected)
  = WormholeError "User rejected the request." UNKNOWN_ERROR /\
  toWormholeError (CaughtError QuoteExpiredError) = QuoteExpiredError.
Proof.
  split.
  - apply (proj1 (proj2 (proj2 (proj2
             (toWormholeError_normalises (CaughtError user_rejected)))))).
    reflexivity.
  - apply (proj2 (proj2 (proj2 (proj2
             (toWormholeError_normalises (CaughtError QuoteExpiredError)))))
             QuoteExpiredError eq_refl).
    reflexivity.
Defined.

(** X9.  [formatErrorForUser] never shows the message of something that is
    not a [WormholeError]: the text is then one of three fixed sentences.  A
    user rejection always reads "Transaction was cancelled", also when it is a
    [TransactionRejectedError]; any other [WormholeError] shows its own
    message. *)
Theorem formatErrorForUser_shows_only_known_text (error : Caught) :
  (caught_isWormholeError error = false ->
   In (formatErrorForUser error)
      [ "Transaction was cancelled";
        "Network error. Please check your connection and try again.";
        "An unexpected error occurred. Please try again." ]) /\
  (isUserRejection error = true ->
   formatErrorForUser error = "Transaction was cancelled") /\
  (caught_isWormholeError error = true -> isUserRejection error = false ->
   formatErrorForUser error = getErrorMessage error) /\
  formatErrorForUser (CaughtError TransactionRejectedError) = "Transaction was cancelled".
Proof.
  unfold formatErrorForUser. repeat split.
  - intros Hw. rewrite Hw.
    destruct (isUserRejection error), (isNetworkError error); cbn; auto.
  - intros ->. reflexivity.
  - intros -> ->. reflexivity.
Qed.

Lemma formatErrorForUser_shows_only_known_text_witness :
  formatErrorForUser (CaughtError user_rejected) = "Transaction was cancelled" /\
  formatErrorForUser (CaughtError QuoteExpiredError)
  = "Quote has expired, please fetch a new quote" /\
  In (formatErrorForUser (CaughtError (Error "No supported destination tokens found")))
     [ "Transaction was cancelled";
       "Network error. Please check your connection and try again.";
       "An unexpected error occurred. Please try again." ].
Proof.
  split; [| split].
  - apply (proj1 (proj2 (formatErrorForUser_shows_only_known_text
                           (CaughtError user_rejected)))).
    reflexivity.
  - apply (proj1 (proj2 (proj2 (formatErrorForUser_shows_only_known_text
                                  (CaughtError QuoteExpiredError)))));
      reflexivity.
  - apply (proj1 (formatErrorForUser_shows_only_known_text
                    (CaughtError (Error "No supported destination tokens found")))).
    reflexivity.
Defined.

(** X10.  An error is recoverable exactly when it is a network error or has
    the code QUOTE_EXPIRED (the code TX_TIMEOUT already makes it a network
    error); every [TransactionTimeoutError] and [QuoteExpiredError] is
    recoverable, a [TransactionRejectedError] is not. *)
Theorem isRecoverableError_characterised :
  (forall error,
      isRecoverableError error
      = isNetworkError error || hasErrorCode error QUOTE_EXPIRED) /\
  (forall txHash,
      isRecoverableError (CaughtError (TransactionTimeoutError txHash)) = true) /\
  isRecoverableError (CaughtError QuoteExpiredError) = true /\
  isRecoverableError (CaughtError TransactionRejectedError) = false.
Proof.
  split; [| split; [| split]]; try reflexivity.
  intros [e | s |]; unfold isRecoverableError, isNetworkError;
    cbn [hasErrorCode existsb];
    try (rewrite !orb_false_r; reflexivity).
  destruct (err_code e) as [code |]; [| rewrite !orb_false_r; reflexivity].
  repeat match goal with
         | |- context [ includes ?m ?w ] => destruct (includes m w)
         end;
    destruct (code_eqb code TX_TIMEOUT), (code_eqb code QUOTE_EXPIRED); reflexivity.
Qed.

(** X11.  [wrapError] makes the same calls as the promise it wraps and passes
    a result through unchanged; what the promise throws is rethrown as a
    [WormholeError] with the same message (or as what the factory makes of
    it).  Wrapped around [initiateTransfer], an invalid validation therefore
    surfaces with the code UNKNOWN_ERROR and the validation reason as its
    message. *)
Theorem wrapError_converts_what_is_thrown {A : Type} (promise : Async A) (t : Trace) :
  (forall factory, fst (wrapError promise factory t) = fst (promise t)) /\
  (forall factory t' a,
      promise t = (t', Returned a) -> wrapError promise factory t = (t', Returned a)) /\
  (forall t' e,
      promise t = (t', Thrown e) ->
      wrapError promise None t = (t', Thrown (toWormholeError (CaughtError e))) /\
      isWormholeError (toWormholeError (CaughtError e)) = true /\
      err_message (toWormholeError (CaughtError e)) = err_message e) /\
  (forall factory t' e,
      promise t = (t', Thrown e) ->
      wrapError promise (Some factory) t = (t', Thrown (factory (CaughtError e)))) /\
  (forall args v,
      validate (ip_route args) t (ip_transferRequest args)
        {| tp_amount := ip_amount args; tp_nativeGas := 0 |} = Returned v ->
      valid v = false ->
      snd (wrapError (initiateTransfer args) None t)
      = Thrown (WormholeError
                  (or_default (validation_error v) "Transfer validation failed")
                  UNKNOWN_ERROR)).
Proof.
  unfold wrapError. split; [| split; [| split; [| split]]].
  - intros factory. destruct (promise t) as [t' [a | e]]; [reflexivity |].
    destruct factory; reflexivity.
  - intros factory t' a ->. reflexivity.
  - intros t' e ->. split; [reflexivity |].
    cbn [toWormholeError getErrorMessage].
    destruct (isWormholeError e) eqn:He; split; solve [assumption | reflexivity].
  - intros factory t' e ->. reflexivity.
  - intros args v Hv Hinvalid.
    unfold initiateTransfer, bind, call, throw. rewrite Hv, Hinvalid. reflexivity.
Qed.

Lemma wrapError_converts_what_is_thrown_witness :
  exists signer,
    createWormholeSigner quiet_chain obliging_wallet (wh_handle "Mainnet") "Ethereum"
    = Returned signer /\
    snd (wrapError (initiateTransfer (transfer_args too_small_route signer)) None [])
    = Thrown (WormholeError "Amount too small" UNKNOWN_ERROR).
Proof.
  eexists. split; [reflexivity |].
  lazymatch goal with
  | |- snd (wrapError (initiateTransfer ?args) None []) = _ =>
      apply (proj2 (proj2 (proj2 (proj2
               (wrapError_converts_what_is_thrown (initiateTransfer args) []))))
               args _ eq_refl eq_refl)
  end.
Defined.

(* ===================================================================== *)
(** * Properties of the chain and route tables                            *)
(* ===================================================================== *)

(** X12.  The two chain-id tables of the SDK constants are inverse to each
    other and have no repeated key; the [CHAINS] table of the application has
    exactly their entries, each stored under its own id; and every chain has
    an explorer and a USDC address, all addresses (the native-token sentinel
    included) being well-formed for the module's own address pattern. *)
Theorem chain_tables_agree :
  (forall id chainName,
      In (id, chainName) EVM_CHAIN_ID_TO_WORMHOLE_CHAIN <->
      In (chainName, id) WORMHOLE_CHAIN_TO_EVM_CHAIN_ID) /\
  NoDup (map fst EVM_CHAIN_ID_TO_WORMHOLE_CHAIN) /\
  NoDup (map fst WORMHOLE_CHAIN_TO_EVM_CHAIN_ID) /\
  (forall c, ci_id (CHAINS c) = chain_key c /\
             In (chain_key c, ci_name (CHAINS c)) EVM_CHAIN_ID_TO_WORMHOLE_CHAIN) /\
  (forall id chainName,
      In (id, chainName) EVM_CHAIN_ID_TO_WORMHOLE_CHAIN ->
      exists c, chain_key c = id /\ ci_name (CHAINS c) = chainName) /\
  map fst EXPLORERS = map fst WORMHOLE_CHAIN_TO_EVM_CHAIN_ID /\
  map fst USDC_ADDRESSES = map fst WORMHOLE_CHAIN_TO_EVM_CHAIN_ID /\
  forallb EVM_ADDRESS_REGEX_test (NATIVE_TOKEN_ADDRESS :: map snd USDC_ADDRESSES) = true.
Proof.
  split; [| split; [| split; [| split; [| split]]]].
  - intros id chainName. unfold EVM_CHAIN_ID_TO_WORMHOLE_CHAIN,
      WORMHOLE_CHAIN_TO_EVM_CHAIN_ID. cbn [In].
    split; intros H;
      repeat (destruct H as [H | H]; [injection H as <- <-; tauto |]);
      contradiction.
  - cbn. repeat constructor; cbn; intuition discriminate.
  - cbn. repeat constructor; cbn; intuition discriminate.
  - intros c. destruct c; cbn; tauto.
  - intros id chainName H. cbn [EVM_CHAIN_ID_TO_WORMHOLE_CHAIN In] in H.
    destruct H as [H | [H | [H | [H | [H | [H | [H | []]]]]]]]; injection H as <- <-;
      [exists chain_1 | exists chain_10 | exists chain_56 | exists chain_137
       | exists chain_8453 | exists chain_42161 | exists chain_43114];
      split; reflexivity.
  - repeat split; reflexivity.
Qed.

(** X13.  For each of the four route kinds, the name, the description and
    the automatic flag that the presenter derives from the class name are
    those of [ROUTE_METADATA], where a route needs a manual claim exactly when
    it is not automatic.  The default priority list is the list handed to the
    resolver, the "fastest" list equals it, and the "cheapest" list is a
    rearrangement of it with the manual kinds first. *)
Theorem route_tables_agree :
  (forall rt,
      getRouteName (route_type_value rt) = md_name (ROUTE_METADATA rt) /\
      getRouteDescription (route_type_value rt) = md_description (ROUTE_METADATA rt) /\
      isAutomaticRoute (route_type_value rt) = md_isAutomatic (ROUTE_METADATA rt) /\
      md_requiresManualClaim (ROUTE_METADATA rt) = negb (md_isAutomatic (ROUTE_METADATA rt))) /\
  map route_type_value DEFAULT_ROUTE_PRIORITY = resolver_routes /\
  FASTEST_ROUTE_PRIORITY = DEFAULT_ROUTE_PRIORITY /\
  Permutation CHEAPEST_ROUTE_PRIORITY DEFAULT_ROUTE_PRIORITY /\
  map (fun rt => md_isAutomatic (ROUTE_METADATA rt)) CHEAPEST_ROUTE_PRIORITY
  = [false; false; true; true].
Proof.
  split; [intros rt; destruct rt; repeat split |].
  repeat split.
  unfold CHEAPEST_ROUTE_PRIORITY, DEFAULT_ROUTE_PRIORITY.
  eapply perm_trans; [apply perm_skip, perm_swap |].
  eapply perm_trans; [apply perm_swap |].
  apply perm_skip. eapply perm_trans; [apply perm_skip, perm_swap |].
  apply Permutation_refl.
Qed.

Lemma chain_tables_agree_witness :
  In ("Base", 8453) WORMHOLE_CHAIN_TO_EVM_CHAIN_ID /\
  exists c, chain_key c = 8453 /\ ci_name (CHAINS c) = "Base".
Proof.
  destruct chain_tables_agree as (Hinv & _ & _ & _ & Hchains & _).
  assert (Hin : In (8453, "Base") EVM_CHAIN_ID_TO_WORMHOLE_CHAIN).
  { cbn. tauto. }
  split; [apply (proj1 (Hinv 8453 "Base") Hin) | apply (Hchains 8453 "Base" Hin)].
Defined.

(* ===================================================================== *)
(** * Further properties of the route resolver                            *)
(* ===================================================================== *)

Section ResolverRuns.
Variable sdk : Sdk.
Variable request : QuoteParams.
Variable t0 : Trace.
Variables (wh : Wh) (resolver : Resolver) (srcChain dstChain : ChainContext).
Variables (tokenId destToken0 : TokenId) (destTokens : list TokenId).
Variables (senderAddr receiverAddr : ParsedAddress) (created : TransferRequest).

Let t1 : Trace := (t0 ++ [InitWormhole "Mainnet"])%list.
Let t2 : Trace :=
  (t1 ++ [SupportedDestinationTokens tokenId (cc_chain srcChain) (cc_chain dstChain)])%list.
Let t3 : Trace := (t2 ++ [CreateTransferRequest tokenId destToken0])%list.
Let transferRequest : TransferRequest :=
  {| source := source created; destination := destination created;
     sender := Some senderAddr; receiver := Some receiverAddr |}.
Let t4 : Trace := (t3 ++ [FindRoutes transferRequest])%list.

Hypothesis init_ok : wormhole sdk t0 "Mainnet" = Returned wh.
Hypothesis resolver_ok : wh_resolver sdk wh resolver_routes = Returned resolver.
Hypothesis src_ok : wh_getChain sdk wh (qp_sourceChain request) = Returned srcChain.
Hypothesis dst_ok : wh_getChain sdk wh (qp_destChain request) = Returned dstChain.
Hypothesis token_ok :
  Wormhole_tokenId sdk (cc_chain srcChain)
    (if String.eqb (qp_tokenAddress request) NATIVE_TOKEN_ADDRESS
     then "native" else qp_tokenAddress request) = Returned tokenId.
Hypothesis dest_ok :
  supportedDestinationTokens sdk t1 resolver tokenId srcChain dstChain
  = Returned (Some (destToken0 :: destTokens)).
Hypothesis sender_ok :
  Wormhole_parseAddress sdk (cc_chain srcChain) (qp_sourceAddress request)
  = Returned senderAddr.
Hypothesis receiver_ok :
  Wormhole_parseAddress sdk (cc_chain dstChain) (qp_destAddress request)
  = Returned receiverAddr.
Hypothesis create_ok :
  RouteTransferRequest_create sdk t2 wh tokenId destToken0 = Returned created.

Lemma getTransferQuote_reaches_findRoutes :
  getTransferQuote sdk request t0 =
  match findRoutes sdk t3 resolver transferRequest with
  | Thrown e => (t4, Thrown e)
  | Returned None | Returned (Some []) =>
      (t4, Thrown (Error "No routes found for this transfer"))
  | Returned (Some (route0 :: rest)) =>
      (t4, Returned {| qr_route := route0; qr_transferRequest := transferRequest;
                       qr_wh := wh; qr_allRoutes := route0 :: rest |})
  end.
Proof.
  unfold getTransferQuote, initWormhole, bind, call, lift, throw, ret.
  rewrite init_ok, resolver_ok, src_ok, dst_ok, token_ok.
  fold t1. rewrite dest_ok, sender_ok, receiver_ok.
  fold t2. rewrite create_ok. fold t3. fold transferRequest. fold t4.
  destruct (findRoutes sdk t3 resolver transferRequest) as [[[| route0 rest] |] | e];
    reflexivity.
Qed.

(** X14.  When every step of the resolution succeeds, [getTransferQuote]
    makes exactly four calls (initialise, destination tokens, create request,
    find routes), in that order; it asks for the first supported destination
    token only, stamps the parsed sender and receiver on the request, and
    returns the first route found as the chosen one together with the whole
    list. *)
Theorem getTransferQuote_returns_first_route (route0 : Route) (rest : list Route) :
  findRoutes sdk t3 resolver transferRequest = Returned (Some (route0 :: rest)) ->
  getTransferQuote sdk request t0 =
  ((t0 ++ [ InitWormhole "Mainnet";
            SupportedDestinationTokens tokenId (cc_chain srcChain) (cc_chain dstChain);
            CreateTransferRequest tokenId destToken0;
            FindRoutes transferRequest ])%list,
   Returned {| qr_route := route0;
               qr_transferRequest := transferRequest;
               qr_wh := wh;
               qr_allRoutes := route0 :: rest |}).
Proof.
  intros Hfound. rewrite getTransferQuote_reaches_findRoutes, Hfound.
  unfold t4, t3, t2, t1. rewrite <- !app_assoc. reflexivity.
Qed.

(** X15.  When the resolver finds no route (an empty list, or none), or
    fails, [getTransferQuote] throws after the same four calls: a plain
    [Error] "No routes found for this transfer" in the first case, the
    resolver's own error in the second. *)
Theorem getTransferQuote_without_routes :
  (findRoutes sdk t3 resolver transferRequest = Returned None \/
   findRoutes sdk t3 resolver transferRequest = Returned (Some []) ->
   getTransferQuote sdk request t0
   = (t4, Thrown (Error "No routes found for this transfer"))) /\
  (forall e,
      findRoutes sdk t3 resolver transferRequest = Thrown e ->
      getTransferQuote sdk request t0 = (t4, Thrown e)).
Proof.
  split.
  - intros [H | H]; rewrite getTransferQuote_reaches_findRoutes, H; reflexivity.
  - intros e H. rewrite getTransferQuote_reaches_findRoutes, H. reflexivity.
Qed.
End ResolverRuns.


Lemma getTransferQuote_returns_first_route_witness :
  getTransferQuote (offering_sdk (Some [automatic_cctp; manual_cctp])) usdc_to_base [] =
  ([ InitWormhole "Mainnet";
     SupportedDestinationTokens USDC_on_Ethereum "Ethereum" "Base";
     CreateTransferRequest USDC_on_Ethereum USDC_on_Base;
     FindRoutes usdc_request ],
   Returned {| qr_route := automatic_cctp;
               qr_transferRequest := usdc_request;
               qr_wh := wh_handle "Mainnet";
               qr_allRoutes := [automatic_cctp; manual_cctp] |}).
Proof.
  apply (getTransferQuote_returns_first_route
           (offering_sdk (Some [automatic_cctp; manual_cctp])) usdc_to_base []
           (wh_handle "Mainnet") (resolver_handle resolver_routes)
           {| cc_chain := "Ethereum" |} {| cc_chain := "Base" |}
           USDC_on_Ethereum USDC_on_Base []
           {| pa_chain := "Ethereum"; pa_text := account_address alice |}
           {| pa_chain := "Base"; pa_text := account_address alice |}
           {| source := USDC_on_Ethereum; destination := USDC_on_Base;
              sender := None; receiver := None |}
           eq_refl eq_refl eq_refl eq_refl eq_refl eq_refl eq_refl eq_refl eq_refl
           automatic_cctp [manual_cctp] eq_refl).
Defined.

Lemma getTransferQuote_without_routes_witness :
  getTransferQuote (offering_sdk (Some [])) usdc_to_base [] =
  ([ InitWormhole "Mainnet";
     SupportedDestinationTokens USDC_on_Ethereum "Ethereum" "Base";
     CreateTransferRequest USDC_on_Ethereum USDC_on_Base;
     FindRoutes usdc_request ],
   Thrown (Error "No routes found for this transfer")).
Proof.
  apply (proj1 (getTransferQuote_without_routes
           (offering_sdk (Some [])) usdc_to_base []
           (wh_handle "Mainnet") (resolver_handle resolver_routes)
           {| cc_chain := "Ethereum" |} {| cc_chain := "Base" |}
           USDC_on_Ethereum USDC_on_Base []
           {| pa_chain := "Ethereum"; pa_text := account_address alice |}
           {| pa_chain := "Base"; pa_text := account_address alice |}
           {| source := USDC_on_Ethereum; destination := USDC_on_Base;
              sender := None; receiver := None |}
           eq_refl eq_refl eq_refl eq_refl eq_refl eq_refl eq_refl eq_refl eq_refl)).
  right. reflexivity.
Defined.

(** X16.  Whatever the protocol answers, a result of [getTransferQuote] is
    well formed: the chosen route is the first of a non-empty route list, the
    request carries a parsed sender and receiver, the handle is the one the
    initialisation returned, and exactly the four resolution calls were made,
    the last one being the enumeration over the returned request. *)
Theorem getTransferQuote_result_is_well_formed
    (sdk : Sdk) (request : QuoteParams) (t0 t1 : Trace) (found : QuoteResult) :
  getTransferQuote sdk request t0 = (t1, Returned found) ->
  hd_error (qr_allRoutes found) = Some (qr_route found) /\
  sender (qr_transferRequest found) <> None /\
  receiver (qr_transferRequest found) <> None /\
  wormhole sdk t0 "Mainnet" = Returned (qr_wh found) /\
  exists tokenId srcChain dstChain destToken0,
    t1 = (t0 ++ [ InitWormhole "Mainnet";
                  SupportedDestinationTokens tokenId srcChain dstChain;
                  CreateTransferRequest tokenId destToken0;
                  FindRoutes (qr_transferRequest found) ])%list.
Proof.
  unfold getTransferQuote, initWormhole, bind, call, lift, throw, ret.
  intros H.
  destruct (wormhole sdk t0 "Mainnet") as [wh | ?] eqn:Hinit; [| discriminate].
  destruct (wh_resolver sdk wh resolver_routes) as [resolver | ?]; [| discriminate].
  destruct (wh_getChain sdk wh (qp_sourceChain request)) as [srcChain | ?];
    [| discriminate].
  destruct (wh_getChain sdk wh (qp_destChain request)) as [dstChain | ?];
    [| discriminate].
  destruct (Wormhole_tokenId sdk _ _) as [tokenId | ?]; [| discriminate].
  destruct (supportedDestinationTokens sdk _ _ _ _ _)
    as [[[| destToken0 destTokens] |] | ?]; try discriminate.
  destruct (Wormhole_parseAddress sdk (cc_chain srcChain) _) as [senderAddr | ?];
    [| discriminate].
  destruct (Wormhole_parseAddress sdk (cc_chain dstChain) _) as [receiverAddr | ?];
    [| discriminate].
  destruct (RouteTransferRequest_create sdk _ _ _ _) as [created | ?]; [| discriminate].
  destruct (findRoutes sdk _ _ _) as [[[| route0 rest] |] | ?]; try discriminate.
  injection H as <- <-. cbn.
  repeat split; try discriminate.
  exists tokenId, (cc_chain srcChain), (cc_chain dstChain), destToken0.
  rewrite <- !app_assoc. reflexivity.
Qed.

Lemma getTransferQuote_result_is_well_formed_witness :
  hd_error [automatic_cctp; manual_cctp] = Some automatic_cctp /\
  sender usdc_request <> None.
Proof.
  destruct (getTransferQuote_result_is_well_formed
              (offering_sdk (Some [automatic_cctp; manual_cctp])) usdc_to_base []
              _ _ eq_refl) as (Hhd & Hsender & _).
  split; [exact Hhd | exact Hsender].
Defined.

(* ===================================================================== *)
(** * Further properties of the transfer executor and the signer          *)
(* ===================================================================== *)

(** X17.  When validation and quote succeed, [initiateTransfer] calls
    [route.initiate] with a receiver made of the chain of the quote's
    destination token and the request's parsed receiver, and ends exactly as
    that call does: the receipt is returned untouched, an error is rethrown
    unchanged.  An error thrown by [route.validate] or [route.quote] is
    likewise rethrown unchanged, and nothing is called after it. *)
Theorem initiateTransfer_forwards_the_route_outcome (args : InitiateParams) (t0 : Trace) :
  let route := ip_route args in
  let request := ip_transferRequest args in
  let signer := ip_signer args in
  let tp := {| tp_amount := ip_amount args; tp_nativeGas := 0 |} in
  let V := RouteValidate (constructor_name route) request tp in
  let Q v := RouteQuote (constructor_name route) request (params v) in
  (forall e,
      validate route t0 request tp = Thrown e ->
      initiateTransfer args t0 = ((t0 ++ [V])%list, Thrown e)) /\
  (forall v e,
      validate route t0 request tp = Returned v -> valid v = true ->
      quote route (t0 ++ [V])%list request (params v) = Thrown e ->
      initiateTransfer args t0 = ((t0 ++ [V; Q v])%list, Thrown e)) /\
  (forall v q dt,
      validate route t0 request tp = Returned v -> valid v = true ->
      quote route (t0 ++ [V])%list request (params v) = Returned q ->
      success q = true ->
      destinationToken q = Some dt ->
      let to_ := {| ca_chain := tid_chain (dt_token dt);
                    ca_address := receiver request |} in
      let I := RouteInitiate (constructor_name route) request
                 (signer_chain signer) (signer_address signer) q to_ in
      initiateTransfer args t0 =
      ((t0 ++ [V; Q v; I])%list,
       initiate route (t0 ++ [V; Q v])%list request
         (signer_chain signer) (signer_address signer) q to_)).
Proof.
  cbv zeta. unfold initiateTransfer, bind, call, throw, ret.
  split; [| split].
  - intros e ->. reflexivity.
  - intros v e -> -> Hq. cbn [negb]. rewrite Hq, <- app_assoc. reflexivity.
  - intros v q dt -> -> Hq Hs Hdt. cbn [negb]. rewrite Hq, Hs, Hdt. cbn [negb].
    rewrite <- !app_assoc. cbn [app].
    destruct (initiate _ _ _ _ _ _ _); reflexivity.
Qed.

Lemma initiateTransfer_forwards_the_route_outcome_witness :
  exists signer,
    createWormholeSigner quiet_chain obliging_wallet (wh_handle "Mainnet") "Ethereum"
    = Returned signer /\
    snd (initiateTransfer (transfer_args two_step_route signer) [])
    = Returned (Some two_step_receipt).
Proof.
  eexists. split; [reflexivity |].
  lazymatch goal with
  | |- snd (initiateTransfer ?args []) = _ =>
      rewrite (proj2 (proj2 (initiateTransfer_forwards_the_route_outcome args []))
                 accepted (quote_of None (Some 900000))
                 {| dt_token := USDC_on_Base |}
                 eq_refl eq_refl eq_refl eq_refl eq_refl)
  end.
  reflexivity.
Defined.

(** X18.  [createWormholeSigner] and the adapter refuse a wallet client
    without account or without chain with the error "Wallet not connected";
    for a connected one the signer reports the chain name it was given and the
    account's address, and its adapter answers [getAddress] and [getNetwork]
    from the wallet client alone, without any call. *)
Theorem createWormholeSigner_needs_a_connected_wallet
    (createPublicClient : Chain -> PublicClient) (walletClient : WalletClient)
    (wh : Wh) (name : string) :
  (account walletClient = None \/ chain walletClient = None ->
   createWormholeSigner createPublicClient walletClient wh name
   = Thrown (Error "Wallet not connected") /\
   walletClientToEthersSigner createPublicClient walletClient
   = Thrown (Error "Wallet not connected")) /\
  (forall a c,
      account walletClient = Some a -> chain walletClient = Some c ->
      exists signer,
        createWormholeSigner createPublicClient walletClient wh name = Returned signer /\
        signer_chain signer = name /\
        signer_address signer = account_address a /\
        forall t,
          getAddress (ethersSigner signer) t = (t, Returned (account_address a)) /\
          getNetwork (provider (ethersSigner signer)) t
          = (t, Returned {| net_chainId := chain_id c; net_name := chain_name c |})).
Proof.
  unfold createWormholeSigner, walletClientToEthersSigner. split.
  - intros [H | H]; rewrite H; [split; reflexivity |].
    destruct (account walletClient); split; reflexivity.
  - intros a c -> ->. eexists. split; [reflexivity |]. repeat split.
Qed.

Lemma createWormholeSigner_needs_a_connected_wallet_witness :
  createWormholeSigner quiet_chain
    {| account := None; chain := Some ethereum;
       wallet_sendTransaction := fun _ _ => Thrown user_rejected |}
    (wh_handle "Mainnet") "Ethereum"
  = Thrown (Error "Wallet not connected") /\
  exists signer,
    createWormholeSigner quiet_chain obliging_wallet (wh_handle "Mainnet") "Base"
    = Returned signer /\ signer_chain signer = "Base".
Proof.
  split.
  - apply (proj1 (createWormholeSigner_needs_a_connected_wallet quiet_chain
             {| account := None; chain := Some ethereum;
                wallet_sendTransaction := fun _ _ => Thrown user_rejected |}
             (wh_handle "Mainnet") "Ethereum")).
    left. reflexivity.
  - destruct (proj2 (createWormholeSigner_needs_a_connected_wallet quiet_chain
                       obliging_wallet (wh_handle "Mainnet") "Base")
                alice ethereum eq_refl eq_refl) as (signer & Hs & Hc & _).
    exists signer. split; assumption.
Defined.

(** X19.  [getFeeData] reads the latest block and then the gas price.  The
    priority fee is a tenth of the gas price (rounded down), the maximal fee
    is twice the base fee plus the priority fee, the base fee being the
    block's, or the gas price when the block has none (or zero); so for
    non-negative chain data the priority fee never exceeds the maximal fee.
    When the block cannot be read the gas price is not asked for. *)
Theorem getFeeData_fee_caps (createPublicClient : Chain -> PublicClient)
    (walletClient : WalletClient) (a : Account) (c : Chain) (ethers : EthersSigner)
    (t : Trace) :
  account walletClient = Some a ->
  chain walletClient = Some c ->
  walletClientToEthersSigner createPublicClient walletClient = Returned ethers ->
  (forall e,
      getBlock (createPublicClient c) t = Thrown e ->
      getFeeData (provider ethers) t = ((t ++ [GetBlock])%list, Thrown e)) /\
  (forall block gasPrice,
      getBlock (createPublicClient c) t = Returned block ->
      getGasPrice (createPublicClient c) (t ++ [GetBlock])%list = Returned gasPrice ->
      exists fees,
        getFeeData (provider ethers) t
        = ((t ++ [GetBlock; GetGasPrice])%list, Returned fees) /\
        fd_gasPrice fees = gasPrice /\
        fd_maxPriorityFeePerGas fees = Z.quot gasPrice 10 /\
        (forall baseFee, baseFeePerGas block = Some baseFee -> baseFee <> 0 ->
                         fd_maxFeePerGas fees = 2 * baseFee + Z.quot gasPrice 10) /\
        (baseFeePerGas block = None \/ baseFeePerGas block = Some 0 ->
         fd_maxFeePerGas fees = 2 * gasPrice + Z.quot gasPrice 10) /\
        (0 <= gasPrice ->
         (forall baseFee, baseFeePerGas block = Some baseFee -> 0 <= baseFee) ->
         0 <= fd_maxPriorityFeePerGas fees <= fd_maxFeePerGas fees /\
         10 * fd_maxPriorityFeePerGas fees <= gasPrice)).
Proof.
  intros Ha Hc Hethers. unfold walletClientToEthersSigner in Hethers.
  rewrite Ha, Hc in Hethers. injection Hethers as <-.
  cbn [provider getFeeData]. unfold bind, call, ret. split.
  - intros e ->. reflexivity.
  - intros block gasPrice -> ->. eexists. rewrite <- app_assoc.
    split; [reflexivity |]. cbn [fd_gasPrice fd_maxPriorityFeePerGas fd_maxFeePerGas].
    split; [reflexivity |]. split; [reflexivity |]. split; [| split].
    + intros baseFee -> Hnz. destruct baseFee; cbn [truthy_bigint]; try lia.
    + intros [-> | ->]; cbn [truthy_bigint]; lia.
    + intros Hg Hb.
      assert (Hq : 0 <= Z.quot gasPrice 10 /\ 10 * Z.quot gasPrice 10 <= gasPrice).
      { rewrite Z.quot_div_nonneg by lia. Z.to_euclidean_division_equations. lia. }
      destruct (baseFeePerGas block) as [[| p | p] |]; cbn [truthy_bigint];
        try (specialize (Hb _ eq_refl)); lia.
Qed.

Lemma getFeeData_fee_caps_witness :
  exists ethers,
    walletClientToEthersSigner quiet_chain obliging_wallet = Returned ethers /\
    exists fees,
      getFeeData (provider ethers) [] = ([GetBlock; GetGasPrice], Returned fees) /\
      fd_maxPriorityFeePerGas fees = 3 /\ fd_maxFeePerGas fees = 17.
Proof.
  eexists. split; [reflexivity |].
  destruct (proj2 (getFeeData_fee_caps quiet_chain obliging_wallet alice ethereum _ []
                     eq_refl eq_refl eq_refl)
              {| baseFeePerGas := Some 7 |} 30 eq_refl eq_refl)
    as (fees & Hrun & _ & Hprio & Hmax & _).
  exists fees. split; [exact Hrun |]. split; [exact Hprio |].
  apply (Hmax 7 eq_refl). discriminate.
Defined.

(** X20.  The response of a successful [sendTransaction] carries the hash the
    wallet answered, and its [wait()] makes no call: it returns at once the
    receipt that [sendTransaction] had already awaited, tagged with that
    hash. *)
Theorem sendTransaction_response_is_settled
    (createPublicClient : Chain -> PublicClient) (walletClient : WalletClient)
    (a : Account) (c : Chain) (ethers : EthersSigner)
    (tx : EthersTransaction) (t t' : Trace) (response : TransactionResponse) :
  account walletClient = Some a ->
  chain walletClient = Some c ->
  walletClientToEthersSigner createPublicClient walletClient = Returned ethers ->
  sendTransaction ethers tx t = (t', Returned response) ->
  wallet_sendTransaction walletClient t (viem_request a c tx)
  = Returned (response_hash response) /\
  t' = (t ++ [ WalletSendTransaction (viem_request a c tx);
               WaitForTransactionReceipt (response_hash response) ])%list /\
  exists receipt,
    waitForTransactionReceipt (createPublicClient c)
      (t ++ [WalletSendTransaction (viem_request a c tx)])%list (response_hash response)
    = Returned receipt /\
    forall later, wait response later = (later, Returned (receipt, response_hash response)).
Proof.
  intros Ha Hc Hethers.
  rewrite (sendTransaction_run createPublicClient walletClient a c Ha Hc ethers Hethers).
  destruct (wallet_sendTransaction walletClient t (viem_request a c tx)) as [h | e];
    [| discriminate].
  cbv zeta.
  destruct (waitForTransactionReceipt (createPublicClient c) _ h) as [receipt | e] eqn:Hw;
    [| discriminate].
  intros H. injection H as <- <-. cbn [response_hash wait].
  split; [reflexivity |]. split; [reflexivity |].
  exists receipt. split; [exact Hw | reflexivity].
Qed.

Lemma sendTransaction_response_is_settled_witness :
  exists ethers response,
    walletClientToEthersSigner quiet_chain obliging_wallet = Returned ethers /\
    snd (sendTransaction ethers (transaction transfer) []) = Returned response /\
    wallet_sendTransaction obliging_wallet []
      (viem_request alice ethereum (transaction transfer))
    = Returned (response_hash response).
Proof.
  eexists. eexists. split; [reflexivity |]. split; [reflexivity |].
  apply (sendTransaction_response_is_settled quiet_chain obliging_wallet alice ethereum
           _ (transaction transfer) [] _ _ eq_refl eq_refl eq_refl eq_refl).
Defined.

Lemma signAndSend_loop_prefix (this : ViemWormholeSigner)
    (txns : list UnsignedTransaction) :
  forall (txids : list string) (t : Trace),
    signAndSend_loop this txns txids t =
    match signAndSend_loop this txns [] t with
    | (t', Returned hashes) => (t', Returned (txids ++ hashes)%list)
    | (t', Thrown e) => (t', Thrown e)
    end.
Proof.
  induction txns as [| txn txns IH]; intros txids t; cbn [signAndSend_loop].
  - cbn. rewrite app_nil_r. reflexivity.
  - unfold bind.
    destruct (sendTransaction (ethersSigner this) (transaction txn) t)
      as [t1 [response | e]]; [| reflexivity].
    rewrite (IH (txids ++ [response_hash response])%list t1).
    rewrite (IH ([] ++ [response_hash response])%list t1).
    destruct (signAndSend_loop this txns [] t1) as [t2 [hashes | e]]; [| reflexivity].
    rewrite <- app_assoc. reflexivity.
Qed.

(** X21.  For any signer, an empty batch returns an empty list without a
    call, and sending a concatenated batch is the same as sending the first
    part and then, if it succeeded, the second part: the ids are those of the
    first part followed by those of the second, and when the first part fails
    the second is not started. *)
Theorem signAndSend_splits_into_batches (this : ViemWormholeSigner)
    (first second : list UnsignedTransaction) (t : Trace) :
  signAndSend this [] t = (t, Returned []) /\
  signAndSend this (first ++ second)%list t =
  match signAndSend this first t with
  | (t1, Returned ids1) =>
      match signAndSend this second t1 with
      | (t2, Returned ids2) => (t2, Returned (ids1 ++ ids2)%list)
      | (t2, Thrown e) => (t2, Thrown e)
      end
  | (t1, Thrown e) => (t1, Thrown e)
  end.
Proof.
  split; [reflexivity |]. unfold signAndSend.
  assert (Hgen : forall txids t0,
             signAndSend_loop this (first ++ second)%list txids t0 =
             match signAndSend_loop this first txids t0 with
             | (t1, Returned ids1) => signAndSend_loop this second ids1 t1
             | (t1, Thrown e) => (t1, Thrown e)
             end).
  { induction first as [| txn first IH]; intros txids t0.
    - reflexivity.
    - cbn [app signAndSend_loop]. unfold bind.
      destruct (sendTransaction (ethersSigner this) (transaction txn) t0)
        as [t1 [response | e]]; [| reflexivity].
      apply IH. }
  rewrite Hgen.
  destruct (signAndSend_loop this first [] t) as [t1 [ids1 | e]]; [| reflexivity].
  apply signAndSend_loop_prefix.
Qed.

(* ===================================================================== *)
(** * Properties of the bridge component                                  *)
(* ===================================================================== *)

Lemma or_default_nonempty (v : option string) (d : string) :
  d <> "" -> or_default v d <> "".
Proof.
  intros Hd. unfold or_default. destruct v as [s |]; [| exact Hd].
  destruct (String.eqb_spec s ""); assumption.
Qed.

Lemma last_cons_default {A : Type} (l : list A) :
  forall a d d', last (a :: l) d = last (a :: l) d'.
Proof.
  induction l as [| y l IH]; intros a d d'; [reflexivity |].
  change (last (y :: l) d = last (y :: l) d'). apply IH.
Qed.

Lemma nth_error_last {A : Type} (l : list A) :
  forall x, nth_error (x :: l) (length l) = Some (last l x).
Proof.
  induction l as [| y l IH]; intros x; [reflexivity |].
  cbn [length nth_error]. rewrite IH. f_equal.
  destruct l as [| a l']; [reflexivity |].
  change (last (a :: l') y = last (a :: l') x). apply last_cons_default.
Qed.

(** X22.  The transaction hash of the first bridge component is never empty
    ("unknown" at worst).  Both components show the same hash when the receipt
    lists no origin transaction (the [txid], else the [hash], else "unknown");
    when it lists some, the route-selecting component shows the last id and
    the first component the first id (if that is not empty), so the two agree
    exactly when these coincide. *)
Theorem txHash_of_the_two_components (receipt : option Receipt) :
  Bridge_txHash receipt <> "" /\
  (originTxs_or_empty receipt = [] ->
   Selector_txHash receipt = Some (Bridge_txHash receipt)) /\
  (forall tx txs,
      originTxs_or_empty receipt = tx :: txs ->
      Selector_txHash receipt = Some (tx_txid (last txs tx)) /\
      (tx_txid tx <> "" -> Bridge_txHash receipt = tx_txid tx)).
Proof.
  split; [apply or_default_nonempty; discriminate |]. split.
  - unfold Selector_txHash, Bridge_txHash, initiateTransfer_txHash. intros H. rewrite H.
    cbn [length Nat.ltb Nat.leb]. f_equal.
    destruct receipt as [[[[| tx txs] |] tid h] |]; try discriminate H; reflexivity.
  - intros tx txs H. split.
    + unfold Selector_txHash. rewrite H. cbn [length Nat.ltb Nat.leb Nat.sub].
      rewrite Nat.sub_0_r, nth_error_last. reflexivity.
    + intros Hne. destruct receipt as [[[l |] tid h] |]; cbn in H; try discriminate H.
      subst l. unfold Bridge_txHash, initiateTransfer_txHash, first_origin_txid,
        or_string, truthy_string, or_default. cbn [originTxs].
      destruct (String.eqb_spec (tx_txid tx) "") as [Heq | _]; [contradiction |].
      cbn [negb].
      destruct (String.eqb_spec (tx_txid tx) "") as [Heq | _]; [contradiction |].
      cbn [negb].
      destruct (String.eqb_spec (tx_txid tx) "") as [Heq | _];
        [contradiction | reflexivity].
Qed.

Lemma txHash_of_the_two_components_witness :
  Selector_txHash (Some two_step_receipt) = Some "0xbbb2" /\
  Bridge_txHash (Some two_step_receipt) = "0xaaa1" /\
  Selector_txHash (Some {| originTxs := None; txid := None; hash := Some "0xccc3" |})
  = Some (Bridge_txHash
            (Some {| originTxs := None; txid := None; hash := Some "0xccc3" |})).
Proof.
  destruct (proj2 (proj2 (txHash_of_the_two_components (Some two_step_receipt)))
              {| tx_txid := "0xaaa1"; tx_chain := "Ethereum" |}
              [ {| tx_txid := "0xbbb2"; tx_chain := "Ethereum" |} ] eq_refl)
    as [Hlast Hfirst].
  split; [exact Hlast |]. split; [apply Hfirst; discriminate |].
  apply (proj1 (proj2 (txHash_of_the_two_components
                         (Some {| originTxs := None; txid := None;
                                  hash := Some "0xccc3" |})))).
  reflexivity.
Defined.



Lemma getTransferQuote_submits_nothing (sdk : Sdk) (request : QuoteParams) :
  emits_only (fun ev => is_submission ev = false) (getTransferQuote sdk request).
Proof.
  unfold getTransferQuote, initWormhole.
  repeat first
    [ apply emits_only_bind; [| intros]
    | apply emits_only_call; reflexivity
    | solve [auto with emits]
    | match goal with
      | |- emits_only _ (match ?found with _ => _ end) =>
          destruct found as [[| ? ?] |]
      end ].
Qed.

(** X24.  Past its guard and with a token selected, [handleConfirmTransfer]
    resolves the routes afresh before anything else.  If that resolution
    throws, the handler shows "Error: " followed by the error's message
    ("Transfer failed" when the message is empty), keeps the stored quote,
    and has submitted nothing.  If resolution, signer creation and
    [initiateTransfer] all succeed, it shows the link to the scanner page of
    the hash taken from the receipt and clears the stored quote. *)
Theorem handleConfirmTransfer_outcomes
    (sdk : Sdk) (createPublicClient : Chain -> PublicClient)
    (props : BridgeProps) (s : BridgeState) (t : Trace)
    (addr token : string) (wc : WalletClient) (q : Quote * string) :
  isConnected props = true -> address props = Some addr -> addr <> "" ->
  walletClient props = Some wc -> bridge_quote s = Some q ->
  tokenAddress props = Some token -> token <> "" ->
  (forall t1 e,
      getTransferQuote sdk (quote_params props token addr) t = (t1, Thrown e) ->
      handleConfirmTransfer sdk createPublicClient props s t
      = (t1, {| isTransferring := false;
                transferStatus :=
                  StatusText ("Error: " ++ (if String.eqb (err_message e) ""
                                            then "Transfer failed" else err_message e));
                bridge_quote := Some q;
                showPreview := showPreview s |}) /\
      exists new, t1 = (t ++ new)%list /\
                  Forall (fun ev => is_submission ev = false) new) /\
  (forall t1 found signer t2 receipt,
      getTransferQuote sdk (quote_params props token addr) t = (t1, Returned found) ->
      createWormholeSigner createPublicClient wc (qr_wh found)
        (ci_name (CHAINS (sourceChain props))) = Returned signer ->
      initiateTransfer
        {| ip_route := qr_route found;
           ip_transferRequest := qr_transferRequest found;
           ip_signer := signer;
           ip_wh := qr_wh found;
           ip_destAddress := addr;
           ip_amount := amount props |} t1 = (t2, Returned receipt) ->
      handleConfirmTransfer sdk createPublicClient props s t
      = (t2, {| isTransferring := false;
                transferStatus := StatusInitiated (wormholeUrl (Bridge_txHash receipt));
                bridge_quote := None;
                showPreview := showPreview s |})).
Proof.
  intros Hc Ha Haddr Hw Hq Htok Htoken.
  unfold handleConfirmTransfer. rewrite Hc, Ha, Hw, Hq, Htok.
  destruct (String.eqb_spec addr ""); [contradiction |].
  cbn [truthy_string or_default].
  destruct (String.eqb_spec token ""); [contradiction |]. cbn [negb].
  split.
  - intros t1 e Hrun. rewrite Hrun. split.
    + unfold error_status, or_default, setIsTransferring, setTransferStatus.
      cbn. rewrite Hq. reflexivity.
    + pose proof (getTransferQuote_submits_nothing sdk (quote_params props token addr) t)
        as (new & Hnew & Hall).
      rewrite Hrun in Hnew. cbn [fst] in Hnew. eauto.
  - intros t1 found signer t2 receipt Hrun Hsigner Hinit.
    rewrite Hrun, Hsigner, Hinit. reflexivity.
Qed.

Lemma handleConfirmTransfer_outcomes_witness :
  handleConfirmTransfer no_destination_sdk quiet_chain
    (connected_props (Some (tid_address USDC_on_Ethereum))) previewed_state []
  = ([ InitWormhole "Mainnet";
       SupportedDestinationTokens USDC_on_Ethereum "Ethereum" "Base" ],
     {| isTransferring := false;
        transferStatus := StatusText "Error: No supported destination tokens found";
        bridge_quote := Some (quote_of None (Some 900000), "CCTPRoute");
        showPreview := true |}) /\
  snd (handleConfirmTransfer (offering_sdk (Some [two_step_route])) quiet_chain
         (connected_props (Some (tid_address USDC_on_Ethereum))) previewed_state [])
  = {| isTransferring := false;
       transferStatus :=
         StatusInitiated "https://wormholescan.io/#/tx/0xaaa1?network=Mainnet";
       bridge_quote := None;
       showPreview := true |}.
Proof.
  split.
  - apply (proj1 (handleConfirmTransfer_outcomes no_destination_sdk quiet_chain
                    (connected_props (Some (tid_address USDC_on_Ethereum)))
                    previewed_state [] (account_address alice)
                    (tid_address USDC_on_Ethereum) obliging_wallet
                    (quote_of None (Some 900000), "CCTPRoute")
                    eq_refl eq_refl ltac:(discriminate) eq_refl eq_refl eq_refl
                    ltac:(discriminate))
             _ (Error "No supported destination tokens found") eq_refl).
  - erewrite (proj2 (handleConfirmTransfer_outcomes
                       (offering_sdk (Some [two_step_route])) quiet_chain
                       (connected_props (Some (tid_address USDC_on_Ethereum)))
                       previewed_state [] (account_address alice)
                       (tid_address USDC_on_Ethereum) obliging_wallet
                       (quote_of None (Some 900000), "CCTPRoute")
                       eq_refl eq_refl ltac:(discriminate) eq_refl eq_refl eq_refl
                       ltac:(discriminate))
                _ _ _ _ (Some two_step_receipt) eq_refl eq_refl eq_refl).
    reflexivity.
Defined.

(** X25.  [handlePreviewTransaction] never submits anything: it makes no
    wallet request and never calls [route.initiate].  Without a connected
    wallet, address, wallet client or amount it only shows "Please connect
    wallet and enter amount".  It opens the preview only together with
    storing a successful quote, the status "Review the transaction details
    below" and [isTransferring] reset.  When the route rejects the amount it
    shows "Validation failed: " and the reason, with the stored quote
    cleared, the preview flag untouched and [isTransferring] still set. *)
Theorem handlePreviewTransaction_only_previews
    (sdk : Sdk) (props : BridgeProps) (s : BridgeState) (t : Trace) :
  let result := handlePreviewTransaction sdk props s t in
  (exists new, fst result = (t ++ new)%list /\
               Forall (fun ev => is_submission ev = false) new) /\
  (isConnected props = false \/ address props = None \/ address props = Some "" \/
   walletClient props = None \/ amount props = "" ->
   result = (t, setTransferStatus
                  (StatusText "Please connect wallet and enter amount") s)) /\
  (showPreview s = false -> showPreview (snd result) = true ->
   exists quoteResult kind,
     bridge_quote (snd result) = Some (quoteResult, kind) /\
     success quoteResult = true /\
     isTransferring (snd result) = false /\
     transferStatus (snd result) = StatusText "Review the transaction details below") /\
  (forall addr wc token t1 found v,
      isConnected props = true -> address props = Some addr -> addr <> "" ->
      walletClient props = Some wc -> amount props <> "" ->
      tokenAddress props = Some token -> token <> "" ->
      getTransferQuote sdk (quote_params props token addr) t = (t1, Returned found) ->
      validate (qr_route found) t1 (qr_transferRequest found)
        {| tp_amount := amount props; tp_nativeGas := 0 |} = Returned v ->
      valid v = false ->
      snd result
      = {| isTransferring := true;
           transferStatus :=
             StatusText ("Validation failed: " ++ template_string (validation_error v));
           bridge_quote := None;
           showPreview := showPreview s |}).
Proof.
  cbv zeta. unfold handlePreviewTransaction.
  split; [| split; [| split]].
  - assert (Hnone : forall s', exists new,
               fst (t, s' : BridgeState) = (t ++ new)%list /\
               Forall (fun ev => is_submission ev = false) new).
    { intros s'. exists []. rewrite app_nil_r. split; [reflexivity | constructor]. }
    destruct (isConnected props); [| apply Hnone].
    destruct (address props) as [addr |]; [| apply Hnone].
    destruct (walletClient props) as [wc |]; [| apply Hnone].
    destruct (String.eqb addr "" || String.eqb (amount props) ""); [apply Hnone |].
    destruct (negb (truthy_string (tokenAddress props))); [apply Hnone |].
    pose proof (getTransferQuote_submits_nothing sdk
                  (quote_params props (or_default (tokenAddress props) "") addr) t)
      as (new & Hnew & Hall).
    destruct (getTransferQuote sdk _ t) as [t1 [found | e]]; cbn [fst] in Hnew; subst t1;
      [| exists new; split; [reflexivity | assumption]].
    unfold call.
    destruct (validate _ _ _ _) as [v | e];
      [| exists (new ++ [RouteValidate (constructor_name (qr_route found))
                           (qr_transferRequest found)
                           {| tp_amount := amount props; tp_nativeGas := 0 |}])%list;
         split; [cbn [fst]; rewrite app_assoc; reflexivity
                | apply Forall_app; split; [assumption | repeat constructor]]].
    destruct (negb (valid v));
      [exists (new ++ [RouteValidate (constructor_name (qr_route found))
                         (qr_transferRequest found)
                         {| tp_amount := amount props; tp_nativeGas := 0 |}])%list;
       split; [cbn [fst]; rewrite app_assoc; reflexivity
              | apply Forall_app; split; [assumption | repeat constructor]] |].
    exists (new ++ [RouteValidate (constructor_name (qr_route found))
                      (qr_transferRequest found)
                      {| tp_amount := amount props; tp_nativeGas := 0 |};
                    RouteQuote (constructor_name (qr_route found))
                      (qr_transferRequest found) (params v)])%list.
    split; [| apply Forall_app; split; [assumption | repeat constructor]].
    destruct (quote _ _ _ _) as [quoteResult | e];
      [destruct (negb (success quoteResult)) |];
      cbn [fst]; rewrite <- !app_assoc; reflexivity.
  - intros H.
    destruct (isConnected props); [| reflexivity].
    destruct (address props) as [addr |]; [| reflexivity].
    destruct (walletClient props) as [wc |]; [| reflexivity].
    destruct H as [H | [H | [H | [H | H]]]]; try discriminate H.
    + injection H as ->. reflexivity.
    + rewrite H. cbn. rewrite orb_true_r. reflexivity.
  - intros Hclosed.
    assert (Hsame : forall (t' : Trace) (s' : BridgeState) (P : Prop),
               showPreview s' = showPreview s -> showPreview (snd (t', s')) = true -> P).
    { intros t' s' P Hs' Hopen. cbn [snd] in Hopen. congruence. }
    destruct (isConnected props); [| apply Hsame; reflexivity].
    destruct (address props) as [addr |]; [| apply Hsame; reflexivity].
    destruct (walletClient props) as [wc |]; [| apply Hsame; reflexivity].
    destruct (String.eqb addr "" || String.eqb (amount props) "");
      [apply Hsame; reflexivity |].
    destruct (negb (truthy_string (tokenAddress props))); [apply Hsame; reflexivity |].
    destruct (getTransferQuote sdk _ t) as [t1 [found | e]]; [| apply Hsame; reflexivity].
    unfold call.
    destruct (validate _ _ _ _) as [v | e]; [| apply Hsame; reflexivity].
    destruct (negb (valid v)); [apply Hsame; reflexivity |].
    destruct (quote _ _ _ _) as [quoteResult | e]; [| apply Hsame; reflexivity].
    destruct (success quoteResult) eqn:Hsuccess; cbn [negb];
      [| apply Hsame; reflexivity].
    intros _. exists quoteResult, (constructor_name (qr_route found)).
    repeat split; assumption.
  - intros addr wc token t1 found v -> -> Haddr -> Hamount Htok Htoken Hrun Hv Hinvalid.
    destruct (String.eqb_spec addr ""); [contradiction |].
    destruct (String.eqb_spec (amount props) ""); [contradiction |]. cbn [orb].
    rewrite Htok. cbn [truthy_string or_default].
    destruct (String.eqb_spec token ""); [contradiction |]. cbn [negb].
    rewrite Hrun. unfold call. rewrite Hv, Hinvalid. reflexivity.
Qed.

Lemma handlePreviewTransaction_only_previews_witness :
  snd (handlePreviewTransaction (offering_sdk (Some [too_small_route]))
         (connected_props (Some (tid_address USDC_on_Ethereum))) idle_state [])
  = {| isTransferring := true;
       transferStatus := StatusText "Validation failed: Amount too small";
       bridge_quote := None;
       showPreview := false |}.
Proof.
  apply (proj2 (proj2 (proj2 (handlePreviewTransaction_only_previews
                                (offering_sdk (Some [too_small_route]))
                                (connected_props (Some (tid_address USDC_on_Ethereum)))
                                idle_state [])))
           (account_address alice) obliging_wallet (tid_address USDC_on_Ethereum)
           _ _
           {| valid := false; validation_error := Some "Amount too small";
              params := validated_params 0 |}
           eq_refl eq_refl ltac:(discriminate) eq_refl ltac:(discriminate)
           eq_refl ltac:(discriminate) eq_refl eq_refl eq_refl).
Defined.
